(** * TwinCosmos: the fusion simulator, the decision engine and the driver

    A shallow embedding of [src/simulators/fusion.js] (FusionSimulator),
    [src/decision/engine.js] (DecisionEngine) and [src/index.js] (TwinCosmos),
    followed by the properties of the specification that were checked on it.

    JavaScript numbers are modelled as extended reals: a finite number is a
    real, and the three special values +Infinity, -Infinity and NaN are kept
    with their IEEE 754 propagation rules, so that the unguarded corners of
    the code (logarithm of a non-positive temperature, division by zero) are
    visible.  Arithmetic on finite numbers is exact: rounding, overflow and
    the sign of zero are not modelled (an exact zero behaves as +0). *)

From Stdlib Require Import Reals Lra Lia List String Bool Arith.
From Stdlib Require Import Sorted Permutation.
Import ListNotations.

(** ** JavaScript numbers *)

Module JS.

Local Open Scope R_scope.

Inductive num : Type :=
| Fin (r : R)
| PInf
| NInf
| NaN.

Definition Rltb (a b : R) : bool := if Rlt_dec a b then true else false.
Definition Reqb (a b : R) : bool := if Req_dec_T a b then true else false.

(** The two tests are decided by proof, never by reduction. *)
#[global] Arguments Rltb a b : simpl never.
#[global] Arguments Reqb a b : simpl never.

(** [x + y] *)
Definition add (x y : num) : num :=
  match x, y with
  | NaN, _ | _, NaN => NaN
  | Fin a, Fin b => Fin (a + b)
  | PInf, NInf | NInf, PInf => NaN
  | PInf, _ | _, PInf => PInf
  | NInf, _ | _, NInf => NInf
  end.

(** [-x] *)
Definition neg (x : num) : num :=
  match x with
  | Fin a => Fin (- a)
  | PInf => NInf
  | NInf => PInf
  | NaN => NaN
  end.

(** [x - y] *)
Definition sub (x y : num) : num :=
  match x, y with
  | Fin a, Fin b => Fin (a - b)
  | _, _ => add x (neg y)
  end.

(** An infinity of the sign of [r], NaN at zero: the product of an infinity
    with the finite number [r]. *)
Definition signed_inf (positive : bool) (r : R) : num :=
  if Reqb r 0 then NaN
  else if Bool.eqb positive (Rltb 0 r) then PInf else NInf.

(** [x * y] *)
Definition mul (x y : num) : num :=
  match x, y with
  | NaN, _ | _, NaN => NaN
  | Fin a, Fin b => Fin (a * b)
  | PInf, Fin b | Fin b, PInf => signed_inf true b
  | NInf, Fin b | Fin b, NInf => signed_inf false b
  | PInf, PInf | NInf, NInf => PInf
  | PInf, NInf | NInf, PInf => NInf
  end.

(** [x / y]; a zero divisor is +0. *)
Definition div (x y : num) : num :=
  match x, y with
  | NaN, _ | _, NaN => NaN
  | Fin a, Fin b =>
      if Reqb b 0 then signed_inf true a else Fin (a / b)
  | Fin _, (PInf | NInf) => Fin 0
  | PInf, Fin b => if Rltb b 0 then NInf else PInf
  | NInf, Fin b => if Rltb b 0 then PInf else NInf
  | (PInf | NInf), (PInf | NInf) => NaN
  end.

(** [x < y]; every comparison with NaN is false. *)
Definition lt (x y : num) : bool :=
  match x, y with
  | NaN, _ | _, NaN => false
  | Fin a, Fin b => Rltb a b
  | NInf, (Fin _ | PInf) => true
  | Fin _, PInf => true
  | _, _ => false
  end.

(** [x > y] *)
Definition gt (x y : num) : bool := lt y x.

(** Truthiness of a number: [0] and [NaN] are falsy. *)
Definition truthy (x : num) : bool :=
  match x with
  | Fin a => negb (Reqb a 0)
  | PInf | NInf => true
  | NaN => false
  end.

(** [x || d] on numbers *)
Definition or_else (x d : num) : num := if truthy x then x else d.

(** [Math.min(x, y)] *)
Definition Math_min (x y : num) : num :=
  match x, y with
  | NaN, _ | _, NaN => NaN
  | Fin a, Fin b => Fin (Rmin a b)
  | NInf, _ | _, NInf => NInf
  | PInf, z | z, PInf => z
  end.

(** [Math.max(x, y)] *)
Definition Math_max (x y : num) : num :=
  match x, y with
  | NaN, _ | _, NaN => NaN
  | Fin a, Fin b => Fin (Rmax a b)
  | PInf, _ | _, PInf => PInf
  | NInf, z | z, NInf => z
  end.

(** [Math.abs(x)] *)
Definition Math_abs (x : num) : num :=
  match x with
  | Fin a => Fin (Rabs a)
  | PInf | NInf => PInf
  | NaN => NaN
  end.

(** [Math.floor(x)] *)
Definition Math_floor (x : num) : num :=
  match x with
  | Fin a => Fin (IZR (Int_part a))
  | _ => x
  end.

(** [Math.exp(x)] *)
Definition Math_exp (x : num) : num :=
  match x with
  | Fin a => Fin (exp a)
  | PInf => PInf
  | NInf => Fin 0
  | NaN => NaN
  end.

(** [Math.log10(x)]: -Infinity at zero, NaN below. *)
Definition Math_log10 (x : num) : num :=
  match x with
  | Fin a =>
      if Rltb 0 a then Fin (ln a / ln 10)
      else if Reqb a 0 then NInf else NaN
  | PInf => PInf
  | NInf | NaN => NaN
  end.

(** [Math.pow(x, n)] at a non-negative integer exponent [n] (the code only
    squares): the [n]-fold product, which is [1] at [n = 0] whatever [x]. *)
Fixpoint Math_pow (x : num) (n : nat) : num :=
  match n with
  | O => Fin 1
  | S k => mul x (Math_pow x k)
  end.

End JS.

Export JS.

(** [x || d] on strings: the empty string is falsy. *)
Definition or_else_string (x d : string) : string :=
  match x with EmptyString => d | _ => x end.

(** An object spread [{ k: dflt, ...config }]: a key of [config] that is
    present overrides the value computed before it. *)
Definition spread {A : Type} (given : option A) (dflt : A) : A :=
  match given with Some v => v | None => dflt end.

(** A default parameter value [f(x = d)]. *)
Definition default_arg {A : Type} (d : A) (x : option A) : A :=
  match x with Some v => v | None => d end.

(** The four phase labels ['ignition'], ['ramp-up'], ['burn'], ['decline']. *)
Inductive Phase : Type := ignition | ramp_up | burn | decline.

Definition Phase_eqb (p q : Phase) : bool :=
  match p, q with
  | ignition, ignition | ramp_up, ramp_up
  | burn, burn | decline, decline => true
  | _, _ => false
  end.

(** ** FusionSimulator ([src/simulators/fusion.js]) *)

Module FusionSimulator.

Local Open Scope R_scope.

(** The constructor's argument: every key is optional. *)
Record ConfigArg : Type := mkConfigArg {
  arg_reactorType : option string;
  arg_initialTemperature : option num;
  arg_initialDensity : option num;
  arg_confinementTime : option num;
  arg_majorRadius : option num;
  arg_minorRadius : option num;
  arg_magneticField : option num
}.

Definition no_config : ConfigArg :=
  mkConfigArg None None None None None None None.

Record Config : Type := mkConfig {
  reactorType : string;
  initialTemperature : num;
  initialDensity : num;
  cfg_confinementTime : num;
  majorRadius : num;
  minorRadius : num;
  magneticField : num
}.

(** One entry of [state.history]. *)
Record Snapshot : Type := mkSnapshot {
  snap_time : num;
  snap_temperature : num;
  snap_density : num;
  snap_fusionPower : num;
  snap_stability : num;
  snap_phase : Phase
}.

Record State : Type := mkState {
  temperature : num;
  density : num;
  confinementTime : num;
  fusionPower : num;
  stability : num;
  phase : Phase;
  time : num;
  history : list Snapshot
}.

Record V5Params : Type := mkV5Params {
  barrier : num;
  gamma : num;
  inputRange : num * num
}.

Record t : Type := mkSim {
  config : Config;
  state : State;
  v5Params : V5Params
}.

Definition or_num (given : option num) (d : num) : num :=
  match given with Some v => or_else v d | None => d end.

Definition or_string (given : option string) (d : string) : string :=
  match given with Some v => or_else_string v d | None => d end.

(** [constructor(config = {})] *)
Definition new (arg : ConfigArg) : t :=
  let config := {|
    reactorType :=
      spread (arg_reactorType arg) (or_string (arg_reactorType arg) "tokamak");
    initialTemperature :=
      spread (arg_initialTemperature arg)
             (or_num (arg_initialTemperature arg) (Fin 1e8));
    initialDensity :=
      spread (arg_initialDensity arg)
             (or_num (arg_initialDensity arg) (Fin 1e20));
    cfg_confinementTime :=
      spread (arg_confinementTime arg)
             (or_num (arg_confinementTime arg) (Fin 3.0));
    majorRadius :=
      spread (arg_majorRadius arg) (or_num (arg_majorRadius arg) (Fin 6.0));
    minorRadius :=
      spread (arg_minorRadius arg) (or_num (arg_minorRadius arg) (Fin 2.0));
    magneticField :=
      spread (arg_magneticField arg) (or_num (arg_magneticField arg) (Fin 5.0))
  |} in
  {| config := config;
     state := {|
       temperature := initialTemperature config;
       density := initialDensity config;
       confinementTime := cfg_confinementTime config;
       fusionPower := Fin 0;
       stability := Fin 0.5;
       phase := ignition;
       time := Fin 0;
       history := []
     |};
     v5Params := {|
       barrier := Fin 0.5;
       gamma := Fin 2.0;
       inputRange := (Fin 0, Fin 1)
     |}
  |}.

(** [calculateFusionPower()] *)
Definition calculateFusionPower (st : State) : num :=
  let n := density st in
  let T := temperature st in
  let T_keV := div T (Fin 1.16e7) in
  let sigma_v :=
    div (mul (Fin 1.1e-21) (Math_pow T_keV 2))
        (add (Fin 1) (div T_keV (Fin 15))) in
  let E_fusion := mul (Fin 17.6) (Fin 1.602e-13) in
  let power := mul (mul (mul n n) sigma_v) E_fusion in
  power.

(** [normalizeInput(value)] *)
Definition normalizeInput (value : num) : num :=
  Math_max (Fin 0) (Math_min (Fin 1) value).

(** [calculateV5Barrier(input)] *)
Definition calculateV5Barrier (params : V5Params) (input : num) : num :=
  let barrier := barrier params in
  let gamma := gamma params in
  let Input := normalizeInput input in
  let exponent := mul (mul (Fin (-2)) gamma) (sub Input barrier) in
  let P := div (Fin 1) (add (Fin 1) (Math_exp exponent)) in
  P.

(** [calculateStability()] *)
Definition calculateStability (st : State) : num :=
  let n := div (density st) (Fin 1e20) in
  let T := div (temperature st) (Fin 1e8) in
  let tau := div (confinementTime st) (Fin 3.0) in
  let tripleProduct := mul (mul n T) tau in
  let lawsonLimit := Fin 3e21 in
  let stability := Math_min (Fin 1) (div tripleProduct lawsonLimit) in
  stability.

Definition set_temperature (v : num) (st : State) : State :=
  mkState v (density st) (confinementTime st) (fusionPower st) (stability st)
          (phase st) (time st) (history st).
Definition set_density (v : num) (st : State) : State :=
  mkState (temperature st) v (confinementTime st) (fusionPower st)
          (stability st) (phase st) (time st) (history st).
Definition set_confinementTime (v : num) (st : State) : State :=
  mkState (temperature st) (density st) v (fusionPower st) (stability st)
          (phase st) (time st) (history st).
Definition set_fusionPower (v : num) (st : State) : State :=
  mkState (temperature st) (density st) (confinementTime st) v (stability st)
          (phase st) (time st) (history st).
Definition set_stability (v : num) (st : State) : State :=
  mkState (temperature st) (density st) (confinementTime st) (fusionPower st)
          v (phase st) (time st) (history st).
Definition set_phase (v : Phase) (st : State) : State :=
  mkState (temperature st) (density st) (confinementTime st) (fusionPower st)
          (stability st) v (time st) (history st).
Definition set_time (v : num) (st : State) : State :=
  mkState (temperature st) (density st) (confinementTime st) (fusionPower st)
          (stability st) (phase st) v (history st).
Definition set_history (v : list Snapshot) (st : State) : State :=
  mkState (temperature st) (density st) (confinementTime st) (fusionPower st)
          (stability st) (phase st) (time st) v.

(** The object literal pushed on the history by [step]. *)
Definition snapshot (st : State) : Snapshot :=
  {| snap_time := time st;
     snap_temperature := temperature st;
     snap_density := density st;
     snap_fusionPower := fusionPower st;
     snap_stability := stability st;
     snap_phase := phase st |}.

(** [Array.prototype.shift]: drops the first element. *)
Definition shift {A : Type} (l : list A) : list A := tl l.

(** The statements of [step] on [this.state], in source order. *)
Definition step_state (params : V5Params) (deltaTime : num) (st : State)
  : State :=
  let st := set_time (add (time st) deltaTime) st in
  let heatingPower := Fin 50e6 in
  let coolingFactor := Fin 0.01 in
  let fusionPower' := calculateFusionPower st in
  let st :=
    set_temperature
      (add (temperature st)
           (div (mul (add heatingPower fusionPower') deltaTime) (Fin 1000)))
      st in
  let st :=
    set_temperature
      (mul (temperature st) (sub (Fin 1) (mul coolingFactor deltaTime))) st in
  let fuelingRate := Fin 1e18 in
  let st := set_density (add (density st) (mul fuelingRate deltaTime)) st in
  let st :=
    set_density
      (mul (density st) (sub (Fin 1) (mul (Fin 0.001) deltaTime))) st in
  let st :=
    set_confinementTime
      (mul (Fin 3.0)
           (add (Fin 1)
                (mul (Fin 0.1)
                     (Math_log10 (div (temperature st) (Fin 1e8))))))
      st in
  let st := set_fusionPower fusionPower' st in
  let stability' := calculateStability st in
  let st := set_stability (calculateV5Barrier params stability') st in
  let st :=
    if gt (temperature st) (Fin 1e8) && gt (fusionPower st) (Fin 1e6)
    then set_phase burn st
    else if gt (temperature st) (Fin 5e7)
    then set_phase ramp_up st
    else st in
  let st := set_history (history st ++ [snapshot st]) st in
  let st :=
    if (1000 <? List.length (history st))%nat
    then set_history (shift (history st)) st
    else st in
  st.

(** [step(deltaTime = 1.0)]: the simulator after the call.  The value
    returned to the caller is [getState()] of it. *)
Definition step (deltaTime : option num) (sim : t) : t :=
  let deltaTime := default_arg (Fin 1.0) deltaTime in
  mkSim (config sim) (step_state (v5Params sim) deltaTime (state sim))
        (v5Params sim).

(** [getState()]: a shallow copy of the state. *)
Definition getState (sim : t) : State := state sim.

(** [getHistory()] *)
Definition getHistory (sim : t) : list Snapshot := history (state sim).

(** The argument of [applyControl]: every key is optional. *)
Record Control : Type := mkControl {
  ctl_heating : option num;
  ctl_fueling : option num;
  ctl_magneticField : option num
}.

(** [if (control.k)]: the key is present and its value is truthy. *)
Definition present_truthy (x : option num) : bool :=
  match x with Some v => truthy v | None => false end.

Definition set_magneticField (v : num) (c : Config) : Config :=
  mkConfig (reactorType c) (initialTemperature c) (initialDensity c)
           (cfg_confinementTime c) (majorRadius c) (minorRadius c) v.

(** [applyControl(control)] *)
Definition applyControl (control : Control) (sim : t) : t :=
  let sim :=
    if present_truthy (ctl_heating control)
    then sim (* Adjust heating power *)
    else sim in
  let sim :=
    match ctl_fueling control with
    | Some fueling =>
        if truthy fueling
        then mkSim (config sim)
                   (set_density (mul (density (state sim))
                                     (add (Fin 1) fueling)) (state sim))
                   (v5Params sim)
        else sim
    | None => sim
    end in
  let sim :=
    match ctl_magneticField control with
    | Some b =>
        if truthy b
        then mkSim (set_magneticField b (config sim)) (state sim)
                   (v5Params sim)
        else sim
    | None => sim
    end in
  sim.

(** A run of [step] calls, one per element of [dts]. *)
Definition steps (dts : list (option num)) (sim : t) : t :=
  fold_left (fun s dt => step dt s) dts sim.

End FusionSimulator.

(** ** [Map] with string keys

    A JavaScript [Map] iterates in insertion order, and [set] on a key that
    is present keeps the key's position: an association list without
    duplicate keys. *)

Module JSMap.

Section Ops.
Context {A : Type}.

Definition t : Type := list (string * A).

Fixpoint has (key : string) (m : list (string * A)) : bool :=
  match m with
  | [] => false
  | (k, _) :: rest => if String.eqb k key then true else has key rest
  end.

Fixpoint get (key : string) (m : list (string * A)) : option A :=
  match m with
  | [] => None
  | (k, v) :: rest => if String.eqb k key then Some v else get key rest
  end.

Fixpoint set (key : string) (v : A) (m : list (string * A))
  : list (string * A) :=
  match m with
  | [] => [(key, v)]
  | (k, w) :: rest =>
      if String.eqb k key then (k, v) :: rest else (k, w) :: set key v rest
  end.

(** An assignment to a property of the object stored under [key]: the map
    holds a reference, so the stored value changes in place. *)
Fixpoint modify (key : string) (f : A -> A) (m : list (string * A))
  : list (string * A) :=
  match m with
  | [] => []
  | (k, w) :: rest =>
      if String.eqb k key then (k, f w) :: rest else (k, w) :: modify key f rest
  end.

End Ops.

End JSMap.

(** ** [Array.prototype.sort]

    The sort is stable, and a comparison that returns NaN counts as a tie.
    With a comparison function that is a consistent order the result is the
    one sorted arrangement that keeps ties in their order, which insertion
    from the right computes. *)

Module JSArray.

Section Sort.
Context {A : Type}.

(** [compare x y > 0] puts [y] before [x]. *)
Variable compare : A -> A -> num.

Fixpoint insert (x : A) (l : list A) : list A :=
  match l with
  | [] => [x]
  | y :: rest =>
      if gt (compare x y) (Fin 0) then y :: insert x rest else x :: l
  end.

Definition sort (l : list A) : list A := fold_right insert [] l.

End Sort.

End JSArray.

(** ** DecisionEngine ([src/decision/engine.js]) *)

Module DecisionEngine.

Local Open Scope R_scope.

(** The constructor's argument.  [arg_memory] stands for a reference to the
    driver's memory component, which the engine keeps and never reads. *)
Record ConfigArg : Type := mkConfigArg {
  arg_memory : option bool;
  arg_decisionThreshold : option num;
  arg_explorationRate : option num;
  arg_barrier : option num;
  arg_gamma : option num
}.

Definition no_config : ConfigArg := mkConfigArg None None None None None.

Record Config : Type := mkConfig {
  memory : bool;
  decisionThreshold : num;
  explorationRate : num
}.

Record V5Params : Type := mkV5Params {
  barrier : num;
  gamma : num
}.

Record Algorithms : Type := mkAlgorithms {
  alg_heating : list string;
  alg_fueling : list string;
  alg_magnetic : list string
}.

(** One label per control category: [currentBest] and [decision.actions]. *)
Record Actions : Type := mkActions {
  heating : string;
  fueling : string;
  magnetic : string
}.

(** [decision.state] *)
Record StateView : Type := mkStateView {
  view_temperature : num;
  view_density : num;
  view_stability : num;
  view_phase : Phase
}.

Record Decision : Type := mkDecision {
  timestamp : num;
  decision_state : StateView;
  actions : Actions;
  rationale : list string;
  confidence : num;
  shouldAct : bool
}.

(** A value of the [patterns] map. *)
Record Pattern : Type := mkPattern {
  pat_temperature : num;
  pat_density : num;
  pat_stability : num;
  pat_fusionPower : num;
  count : num;
  totalScore : num
}.

Record t : Type := mkEngine {
  config : Config;
  v5Params : V5Params;
  algorithms : Algorithms;
  history : list Decision;
  patterns : list (string * Pattern);
  currentBest : Actions
}.

(** The result of [calculateDecision]. *)
Record V5Result : Type := mkV5Result {
  probability : num;
  res_confidence : num;
  shouldDecide : bool;
  matchScore : num
}.

(** One of [decideHeating], [decideFuel], [decideMagnetic]'s results. *)
Record Choice : Type := mkChoice {
  algorithm : string;
  reason : string
}.

Definition or_num (given : option num) (d : num) : num :=
  match given with Some v => or_else v d | None => d end.

(** [constructor(config = {})] *)
Definition new (arg : ConfigArg) : t :=
  {| config := {|
       memory := spread (arg_memory arg) false;
       decisionThreshold :=
         spread (arg_decisionThreshold arg)
                (or_num (arg_decisionThreshold arg) (Fin 0.7));
       explorationRate :=
         spread (arg_explorationRate arg)
                (or_num (arg_explorationRate arg) (Fin 0.1))
     |};
     v5Params := {|
       barrier := or_num (arg_barrier arg) (Fin 0.5);
       gamma := or_num (arg_gamma arg) (Fin 1.5)
     |};
     algorithms := {|
       alg_heating := [" PID"; "ML-PID"; "Adaptive"; "Neural"]%string;
       alg_fueling := ["Constant"; "Pulsed"; "Feedback"; "Predictive"]%string;
       alg_magnetic := ["Fixed"; "Adaptive"; "Optimized"; "AI"]%string
     |};
     history := [];
     patterns := [];
     currentBest := {|
       heating := "PID";
       fueling := "Feedback";
       magnetic := "Adaptive"
     |}
  |}.

(** The four property names read by [compareState]. *)
Inductive Key : Type := temperature | density | stability | fusionPower.

Definition keys : list Key := [temperature; density; stability; fusionPower].

Definition Key_eqb (j k : Key) : bool :=
  match j, k with
  | temperature, temperature | density, density
  | stability, stability | fusionPower, fusionPower => true
  | _, _ => false
  end.

(** [current[key]] on a simulator state. *)
Definition state_prop (current : FusionSimulator.State) (key : Key) : num :=
  match key with
  | temperature => FusionSimulator.temperature current
  | density => FusionSimulator.density current
  | stability => FusionSimulator.stability current
  | fusionPower => FusionSimulator.fusionPower current
  end.

(** What [compareState] can be handed as its [pattern]: a key of the
    [patterns] map, which is a string, or a value of it. *)
Inductive PatternArg : Type :=
| OfKey (key : string)
| OfValue (p : Pattern).

(** [pattern[key]], with [None] for [undefined]: a string has none of the
    four properties. *)
Definition pattern_prop (pattern : PatternArg) (key : Key) : option num :=
  match pattern with
  | OfKey _ => None
  | OfValue p =>
      Some match key with
           | temperature => pat_temperature p
           | density => pat_density p
           | stability => pat_stability p
           | fusionPower => pat_fusionPower p
           end
  end.

(** [compareState(current, pattern)] *)
Definition compareState (current : FusionSimulator.State)
    (pattern : PatternArg) : num :=
  let '(totalWeight, matchedWeight) :=
    fold_left
      (fun '(totalWeight, matchedWeight) key =>
         match pattern_prop pattern key with
         | Some pattern_key =>
             let weight := if Key_eqb key stability then Fin 2 else Fin 1 in
             let totalWeight := add totalWeight weight in
             let diff :=
               div (Math_abs (sub (state_prop current key) pattern_key))
                   (add pattern_key (Fin 1)) in
             if lt diff (Fin 0.2)
             then (totalWeight, add matchedWeight weight)
             else (totalWeight, matchedWeight)
         | None => (totalWeight, matchedWeight)
         end)
      keys (Fin 0, Fin 0) in
  if gt totalWeight (Fin 0) then div matchedWeight totalWeight else Fin 0.

(** [calculateMatchScore(state, context)].  The loop destructures each map
    entry as [[pattern, score]]: [pattern] is the entry's key. *)
Definition calculateMatchScore (eng : t) (state : FusionSimulator.State)
  : num :=
  match patterns eng with
  | [] => Fin 0.5
  | _ =>
      fold_left
        (fun bestMatch '(pattern, score) =>
           let match_ := compareState state (OfKey pattern) in
           if gt match_ bestMatch then match_ else bestMatch)
        (patterns eng) (Fin 0)
  end.

(** [calculateDecision(input, context = {})] *)
Definition calculateDecision (eng : t) (input : FusionSimulator.State)
  : V5Result :=
  let barrier := barrier (v5Params eng) in
  let gamma := gamma (v5Params eng) in
  let matchScore := calculateMatchScore eng input in
  let exponent := mul (mul (Fin (-2)) gamma) (sub matchScore barrier) in
  let P := div (Fin 1) (add (Fin 1) (Math_exp exponent)) in
  {| probability := P;
     res_confidence := P;
     shouldDecide := gt P (decisionThreshold (config eng));
     matchScore := matchScore |}.

(** [decideHeating(state)] *)
Definition decideHeating (eng : t) (state : FusionSimulator.State) : Choice :=
  if lt (FusionSimulator.temperature state) (Fin 5e7)
  then mkChoice "PID" "Temperature too low, use aggressive PID"
  else if lt (FusionSimulator.stability state) (Fin 0.3)
  then mkChoice "ML-PID" "Stability low, use ML-enhanced PID"
  else if Phase_eqb (FusionSimulator.phase state) burn
  then mkChoice "Adaptive" "Burn phase, adaptive control"
  else mkChoice (heating (currentBest eng)) "Normal operation".

(** [decideFuel(state)] *)
Definition decideFuel (eng : t) (state : FusionSimulator.State) : Choice :=
  if lt (FusionSimulator.density state) (Fin 5e19)
  then mkChoice "Pulsed" "Low density, pulsed fueling"
  else if lt (FusionSimulator.stability state) (Fin 0.4)
  then mkChoice "Predictive" "Low stability, predictive fueling"
  else if Phase_eqb (FusionSimulator.phase state) burn
  then mkChoice "Feedback" "Burn phase, feedback control"
  else mkChoice (fueling (currentBest eng)) "Normal operation".

(** [decideMagnetic(state)] *)
Definition decideMagnetic (eng : t) (state : FusionSimulator.State) : Choice :=
  if lt (FusionSimulator.stability state) (Fin 0.3)
  then mkChoice "AI" "Critical stability, use AI control"
  else if Phase_eqb (FusionSimulator.phase state) burn
  then mkChoice "Optimized" "Burn phase, optimized magnetic field"
  else mkChoice (magnetic (currentBest eng)) "Normal operation".

Definition set_patterns (v : list (string * Pattern)) (eng : t) : t :=
  mkEngine (config eng) (v5Params eng) (algorithms eng) (history eng) v
           (currentBest eng).
Definition set_currentBest (v : Actions) (eng : t) : t :=
  mkEngine (config eng) (v5Params eng) (algorithms eng) (history eng)
           (patterns eng) v.
Definition set_history (v : list Decision) (eng : t) : t :=
  mkEngine (config eng) (v5Params eng) (algorithms eng) v (patterns eng)
           (currentBest eng).

Section Host.

(** The conversion of a number to a string, as a template literal does. *)
Variable Number_toString : num -> string.

(** [hashState(state)] *)
Definition hashState (state : FusionSimulator.State) : string :=
  let t := Math_floor (div (FusionSimulator.temperature state) (Fin 1e7)) in
  let d := Math_floor (div (FusionSimulator.density state) (Fin 1e19)) in
  let s := Math_floor (mul (FusionSimulator.stability state) (Fin 10)) in
  (Number_toString t ++ "_" ++ Number_toString d ++ "_" ++ Number_toString s)
    %string.

(** [learn(state, decision)] *)
Definition learn (state : FusionSimulator.State) (decision : Decision)
    (eng : t) : t :=
  let patternKey := hashState state in
  let eng :=
    if negb (JSMap.has patternKey (patterns eng))
    then set_patterns
           (JSMap.set patternKey
              {| pat_temperature := FusionSimulator.temperature state;
                 pat_density := FusionSimulator.density state;
                 pat_stability := FusionSimulator.stability state;
                 pat_fusionPower := FusionSimulator.fusionPower state;
                 count := Fin 0;
                 totalScore := Fin 0 |}
              (patterns eng))
           eng
    else eng in
  (* pattern.count++ *)
  let eng :=
    set_patterns
      (JSMap.modify patternKey
         (fun p => mkPattern (pat_temperature p) (pat_density p)
                     (pat_stability p) (pat_fusionPower p)
                     (add (count p) (Fin 1)) (totalScore p))
         (patterns eng))
      eng in
  let successScore :=
    if gt (FusionSimulator.stability state) (Fin 0.5) then Fin 1 else Fin 0 in
  (* pattern.totalScore += successScore *)
  let eng :=
    set_patterns
      (JSMap.modify patternKey
         (fun p => mkPattern (pat_temperature p) (pat_density p)
                     (pat_stability p) (pat_fusionPower p)
                     (count p) (add (totalScore p) successScore))
         (patterns eng))
      eng in
  if gt successScore (Fin 0.8)
  then set_currentBest
         {| heating := heating (actions decision);
            fueling := fueling (actions decision);
            magnetic := magnetic (actions decision) |}
         eng
  else eng.

(** [decide(fusionState)]; [now] is the value of [Date.now()] at the call.
    The result is the decision returned and the engine after the call. *)
Definition decide (now : num) (fusionState : FusionSimulator.State) (eng : t)
  : Decision * t :=
  let state_view :=
    {| view_temperature := FusionSimulator.temperature fusionState;
       view_density := FusionSimulator.density fusionState;
       view_stability := FusionSimulator.stability fusionState;
       view_phase := FusionSimulator.phase fusionState |} in
  let heatingDecision := decideHeating eng fusionState in
  let fuelingDecision := decideFuel eng fusionState in
  let magneticDecision := decideMagnetic eng fusionState in
  let v5Result := calculateDecision eng fusionState in
  let decision :=
    {| timestamp := now;
       decision_state := state_view;
       actions := {| heating := algorithm heatingDecision;
                     fueling := algorithm fuelingDecision;
                     magnetic := algorithm magneticDecision |};
       rationale := [reason heatingDecision; reason fuelingDecision;
                     reason magneticDecision];
       confidence := res_confidence v5Result;
       shouldAct := shouldDecide v5Result |} in
  let eng := learn fusionState decision eng in
  let eng := set_history (history eng ++ [decision]) eng in
  (decision, eng).

End Host.

(** [getHistory()] *)
Definition getHistory (eng : t) : list Decision := history eng.

(** An element of [getPatterns]'s result: [{ key, ...value, avgScore }]. *)
Record PatternReport : Type := mkPatternReport {
  rep_key : string;
  rep_temperature : num;
  rep_density : num;
  rep_stability : num;
  rep_fusionPower : num;
  rep_count : num;
  rep_totalScore : num;
  avgScore : num
}.

(** [getPatterns()] *)
Definition getPatterns (eng : t) : list PatternReport :=
  let result :=
    fold_left
      (fun result '(key, value) =>
         result ++
         [{| rep_key := key;
             rep_temperature := pat_temperature value;
             rep_density := pat_density value;
             rep_stability := pat_stability value;
             rep_fusionPower := pat_fusionPower value;
             rep_count := count value;
             rep_totalScore := totalScore value;
             avgScore :=
               if gt (count value) (Fin 0)
               then div (totalScore value) (count value)
               else Fin 0 |}])
      (patterns eng) [] in
  JSArray.sort (fun a b => sub (avgScore b) (avgScore a)) result.

End DecisionEngine.

(** ** The in-memory store created by [TwinCosmos.initialize] *)

Module Memory.

(** [s.includes(q)]: [q] occurs in [s] as a substring. *)
Fixpoint includes (s q : string) : bool :=
  String.prefix q s
  || match s with
     | EmptyString => false
     | String _ rest => includes rest q
     end.

Section Store.

(** Stored values, their metadata, and [JSON.stringify] on the values. *)
Variables V M : Type.
Variable JSON_stringify : V -> string.

(** A value of the [data] map. *)
Record Entry : Type := mkEntry {
  value : V;
  meta : M;
  timestamp : num
}.

(** An element of [retrieve]'s result: [{ key, ...entry }]. *)
Record Found : Type := mkFound {
  found_key : string;
  found_value : V;
  found_meta : M;
  found_timestamp : num
}.

(** The component: its [data] property, [None] while it is unset. *)
Record t : Type := mkMemory {
  data : option (list (string * Entry))
}.

(** [store(key, value, meta)]; [now] is the value of [Date.now()].  The
    result is [true] and the component after the call. *)
Definition store (now : num) (key : string) (value : V) (meta : M) (mem : t)
  : bool * t :=
  let data :=
    match data mem with
    | None => []
    | Some d => d
    end in
  (true, mkMemory (Some (JSMap.set key (mkEntry value meta now) data))).

(** [retrieve(query)] *)
Definition retrieve (query : string) (mem : t) : list Found :=
  match data mem with
  | Some d =>
      fold_left
        (fun results '(key, entry) =>
           if includes key query
              || includes (JSON_stringify (value entry)) query
           then results ++ [mkFound key (value entry) (meta entry)
                                    (timestamp entry)]
           else results)
        d []
  | None => []
  end.

(** The component as [initialize] creates it: [data: new Map()]. *)
Definition create : t := mkMemory (Some []).

End Store.

Arguments mkEntry {V M}.
Arguments value {V M}.
Arguments meta {V M}.
Arguments timestamp {V M}.
Arguments mkFound {V M}.
Arguments found_key {V M}.
Arguments found_value {V M}.
Arguments found_meta {V M}.
Arguments found_timestamp {V M}.
Arguments mkMemory {V M}.
Arguments data {V M}.
Arguments store {V M}.
Arguments retrieve {V M}.
Arguments create {V M}.

End Memory.

(** ** TwinCosmos ([src/index.js]) *)

Module TwinCosmos.

Local Open Scope R_scope.

Record ConfigArg : Type := mkConfigArg {
  arg_memoryEnabled : option bool;
  arg_fusionEnabled : option bool;
  arg_decisionEnabled : option bool;
  arg_reactorType : option string
}.

Definition no_config : ConfigArg := mkConfigArg None None None None.

Record Config : Type := mkConfig {
  memoryEnabled : bool;
  fusionEnabled : bool;
  decisionEnabled : bool;
  reactorType : option string
}.

(** The metadata [step] stores with a decision. *)
Record Meta : Type := mkMeta {
  meta_timestamp : num;
  meta_type : string
}.

Record Components : Type := mkComponents {
  memory : option (Memory.t DecisionEngine.Decision Meta);
  fusion : option FusionSimulator.t;
  decision : option DecisionEngine.t
}.

(** [this.state]; its [memory] and [fusion] properties are [null] and are
    never assigned. *)
Record State : Type := mkState {
  initialized : bool;
  time : num;
  decisions : list DecisionEngine.Decision
}.

Record t : Type := mkTwin {
  config : Config;
  components : Components;
  state : State
}.

(** The object [step] returns; its [memory] property is always [null]. *)
Record Results : Type := mkResults {
  res_time : num;
  res_fusion : option FusionSimulator.State;
  res_decision : option DecisionEngine.Decision
}.

(** A thrown [Error] with its message. *)
Inductive Error : Type := mkError (message : string).

(** How a call ends: it returns a value or throws. *)
Inductive completion (A : Type) : Type :=
| Return (a : A)
| Throw (e : Error).
Arguments Return {A}.
Arguments Throw {A}.

(** The three readings of [Date.now()] one [step] makes, in order: in
    [decide], in the metadata literal, and in [store]. *)
Record Clock : Type := mkClock {
  at_decide : num;
  at_meta : num;
  at_store : num
}.

(** [constructor(config = {})] *)
Definition new (arg : ConfigArg) : t :=
  {| config := {|
       memoryEnabled :=
         spread (arg_memoryEnabled arg) (default_arg true (arg_memoryEnabled arg));
       fusionEnabled :=
         spread (arg_fusionEnabled arg) (default_arg true (arg_fusionEnabled arg));
       decisionEnabled :=
         spread (arg_decisionEnabled arg)
                (default_arg true (arg_decisionEnabled arg));
       reactorType := arg_reactorType arg
     |};
     components := mkComponents None None None;
     state := {| initialized := false; time := Fin 0; decisions := [] |}
  |}.

Definition set_memory
    (v : option (Memory.t DecisionEngine.Decision Meta)) (c : Components)
  : Components :=
  mkComponents v (fusion c) (decision c).
Definition set_fusion (v : option FusionSimulator.t) (c : Components)
  : Components :=
  mkComponents (memory c) v (decision c).
Definition set_decision (v : option DecisionEngine.t) (c : Components)
  : Components :=
  mkComponents (memory c) (fusion c) v.

Definition is_some {A : Type} (x : option A) : bool :=
  match x with Some _ => true | None => false end.

(** [initialize()] *)
Definition initialize (tc : t) : t :=
  let c := components tc in
  let c :=
    if memoryEnabled (config tc)
    then set_memory (Some Memory.create) c
    else c in
  let c :=
    if fusionEnabled (config tc)
    then set_fusion
           (Some (FusionSimulator.new
                    (FusionSimulator.mkConfigArg
                       (Some (FusionSimulator.or_string
                                (reactorType (config tc)) "tokamak"))
                       (Some (Fin 1e8)) (Some (Fin 1e20))
                       None None None None)))
           c
    else c in
  let c :=
    if decisionEnabled (config tc)
    then set_decision
           (Some (DecisionEngine.new
                    (DecisionEngine.mkConfigArg
                       (if is_some (memory c) then Some true else None)
                       None None None None)))
           c
    else c in
  mkTwin (config tc) c (mkState true (time (state tc)) (decisions (state tc))).

Section Host.

Variable Number_toString : num -> string.

(** [step(deltaTime = 1.0)]: how the call ends, and the object after it. *)
Definition step (clock : Clock) (deltaTime : option num) (tc : t)
  : completion Results * t :=
  let deltaTime := default_arg (Fin 1.0) deltaTime in
  if negb (initialized (state tc))
  then (Throw (mkError "TwinCosmos not initialized"), tc)
  else
    let st :=
      mkState (initialized (state tc)) (add (time (state tc)) deltaTime)
              (decisions (state tc)) in
    let c := components tc in
    (* Run fusion simulation step *)
    let '(res_fusion, c) :=
      match fusion c with
      | Some sim =>
          let sim := FusionSimulator.step (Some deltaTime) sim in
          (Some (FusionSimulator.getState sim), set_fusion (Some sim) c)
      | None => (None, c)
      end in
    (* Make decisions based on fusion state *)
    let '(res_decision, c) :=
      match decision c, res_fusion with
      | Some eng, Some fusionState =>
          let '(d, eng) :=
            DecisionEngine.decide Number_toString (at_decide clock)
                                  fusionState eng in
          (Some d, set_decision (Some eng) c)
      | _, _ => (None, c)
      end in
    (* Learn from decisions (store in memory) *)
    let c :=
      match memory c, res_decision with
      | Some mem, Some d =>
          let '(_, mem) :=
            Memory.store (at_store clock)
                         ("step_" ++ Number_toString (time st))%string
                         d (mkMeta (at_meta clock) "decision") mem in
          set_memory (Some mem) c
      | _, _ => c
      end in
    (Return (mkResults (time st) res_fusion res_decision),
     mkTwin (config tc) c st).

(** [run(steps = 100, onStep = null)]: how the call ends, the object after
    it, and the calls [onStep] receives, in order.  [clock i] holds the
    readings of [Date.now()] during iteration [i]; [steps] counts the
    iterations of the loop. *)
Fixpoint run_loop (clock : nat -> Clock) (i remaining : nat) (tc : t)
    (calls : list (Results * nat))
  : completion unit * t * list (Results * nat) :=
  match remaining with
  | O => (Return tt, tc, calls)
  | S remaining =>
      match step (clock i) (Some (Fin 0.1)) tc with
      | (Return result, tc) =>
          run_loop clock (S i) remaining tc (calls ++ [(result, i)])
      | (Throw e, tc) => (Throw e, tc, calls)
      end
  end.

Definition run (clock : nat -> Clock) (steps : option nat) (tc : t)
  : completion State * t * list (Results * nat) :=
  let steps := default_arg 100%nat steps in
  match run_loop clock 0 steps tc [] with
  | (Return _, tc, calls) => (Return (state tc), tc, calls)
  | (Throw e, tc, calls) => (Throw e, tc, calls)
  end.

End Host.

(** The object [getState] returns; its [memory] property is [null]. *)
Record StateReport : Type := mkStateReport {
  rep_initialized : bool;
  rep_time : num;
  rep_fusion : option FusionSimulator.State;
  rep_decisions : list DecisionEngine.Decision
}.

(** [getState()] *)
Definition getState (tc : t) : StateReport :=
  {| rep_initialized := initialized (state tc);
     rep_time := time (state tc);
     rep_fusion :=
       match fusion (components tc) with
       | Some sim => Some (FusionSimulator.getState sim)
       | None => None
       end;
     rep_decisions :=
       match decision (components tc) with
       | Some eng => DecisionEngine.getHistory eng
       | None => []
       end |}.

End TwinCosmos.

(** ** One tick in closed form

    What [FusionSimulator.step] leaves in each field, as an expression of
    the state before the call. *)

Module Tick.

Import FusionSimulator.
Local Open Scope R_scope.

Definition next_temperature (deltaTime : num) (st : State) : num :=
  mul (add (temperature st)
           (div (mul (add (Fin 50e6) (calculateFusionPower st)) deltaTime)
                (Fin 1000)))
      (sub (Fin 1) (mul (Fin 0.01) deltaTime)).

Definition next_density (deltaTime : num) (st : State) : num :=
  mul (add (density st) (mul (Fin 1e18) deltaTime))
      (sub (Fin 1) (mul (Fin 0.001) deltaTime)).

Definition next_confinementTime (deltaTime : num) (st : State) : num :=
  mul (Fin 3.0)
      (add (Fin 1)
           (mul (Fin 0.1)
                (Math_log10 (div (next_temperature deltaTime st) (Fin 1e8))))).

(** The value [step] hands to [calculateV5Barrier]. *)
Definition triple_input (deltaTime : num) (st : State) : num :=
  Math_min (Fin 1)
    (div (mul (mul (div (next_density deltaTime st) (Fin 1e20))
                   (div (next_temperature deltaTime st) (Fin 1e8)))
              (div (next_confinementTime deltaTime st) (Fin 3.0)))
         (Fin 3e21)).

Definition next_phase (deltaTime : num) (st : State) : Phase :=
  if gt (next_temperature deltaTime st) (Fin 1e8)
     && gt (calculateFusionPower st) (Fin 1e6)
  then burn
  else if gt (next_temperature deltaTime st) (Fin 5e7) then ramp_up
  else phase st.

Definition next_snapshot (params : V5Params) (deltaTime : num) (st : State)
  : Snapshot :=
  mkSnapshot (add (time st) deltaTime) (next_temperature deltaTime st)
    (next_density deltaTime st) (calculateFusionPower st)
    (calculateV5Barrier params (triple_input deltaTime st))
    (next_phase deltaTime st).

(** The history after one more push: at most 1000 entries are kept. *)
Definition trim (h : list Snapshot) : list Snapshot :=
  if (1000 <? List.length h)%nat then tl h else h.

(** The fusion power of a plasma of finite density [n] and temperature [T]. *)
Definition power_of (n T : R) : R :=
  n * n
  * (1.1e-21 * (T / 1.16e7 * (T / 1.16e7 * 1)) / (1 + T / 1.16e7 / 15))
  * (17.6 * 1.602e-13).

(** The snapshot pushed by tick number [k] (from 1) of a run. *)
Definition pushed_by (dts : list (option num)) (sim : t) (k : nat)
  : Snapshot :=
  snapshot (state (steps (firstn k dts) sim)).

(** The snapshots pushed by a run, oldest first. *)
Definition pushed (dts : list (option num)) (sim : t) : list Snapshot :=
  map (pushed_by dts sim) (seq 1 (List.length dts)).

(** The simulators a program can hold: built by the constructor, then
    driven by [step] and [applyControl]. *)
Inductive reachable : t -> Prop :=
| reach_new (arg : ConfigArg) : reachable (new arg)
| reach_step (deltaTime : option num) (sim : t) :
    reachable sim -> reachable (step deltaTime sim)
| reach_control (control : Control) (sim : t) :
    reachable sim -> reachable (applyControl control sim).

(** The position of a phase in the documented order. *)
Definition rank (p : Phase) : nat :=
  match p with
  | ignition => 0
  | ramp_up => 1
  | burn => 2
  | decline => 3
  end.

(** The last [k] elements of a list. *)
Definition lastn {A : Type} (k : nat) (l : list A) : list A :=
  skipn (List.length l - k) l.



End Tick.

(** ** The match score as documented *)

Module Documented.

Import DecisionEngine.

(** The match score as the specification words it: the best similarity
    between the snapshot and a learned pattern, 0.5 without patterns. *)
Definition matchScore (eng : t) (state : FusionSimulator.State) : num :=
  match patterns eng with
  | [] => Fin 0.5
  | _ =>
      fold_left
        (fun bestMatch '(_, pattern) =>
           let similarity := compareState state (OfValue pattern) in
           if gt similarity bestMatch then similarity else bestMatch)
        (patterns eng) (Fin 0)
  end.

End Documented.

(** ** Views of the store *)

Module MemoryView.

Import Memory.

Section View.

Variables V M : Type.
Variable JSON_stringify : V -> string.

(** The entries of the store, in insertion order. *)
Definition entries (mem : Memory.t V M) : list (string * Entry V M) :=
  match data mem with Some d => d | None => [] end.

(** The test [retrieve] applies to an entry. *)
Definition matches (query : string) (e : string * Entry V M) : bool :=
  includes (fst e) query || includes (JSON_stringify (value (snd e))) query.

(** The element [retrieve] returns for an entry. *)
Definition found (e : string * Entry V M) : Found V M :=
  mkFound (fst e) (value (snd e)) (meta (snd e)) (timestamp (snd e)).

End View.

Arguments entries {V M}.
Arguments matches {V M}.
Arguments found {V M}.


End MemoryView.

(** ** Inputs used below *)

Module Inputs.

Import FusionSimulator Tick.
Local Open Scope R_scope.

(** [new FusionSimulator({initialTemperature: 1.011e8, initialDensity: 1e19})] *)
Definition cool_start : ConfigArg :=
  mkConfigArg None (Some (Fin 1.011e8)) (Some (Fin 1e19)) None None None None.

(** Its temperature and density after one default tick. *)
Definition cool_T1 : R :=
  (1.011e8 + (50e6 + power_of 1e19 1.011e8) * 1.0 / 1000) * (1 - 0.01 * 1.0).
Definition cool_n1 : R := (1e19 + 1e18 * 1.0) * (1 - 0.001 * 1.0).

(** [new FusionSimulator({initialTemperature: 1e7, initialDensity: 5e19})] *)
Definition demo_start : ConfigArg :=
  mkConfigArg None (Some (Fin 1e7)) (Some (Fin 5e19)) None None None None.

(** A plasma in steady burn, as [getState()] would report it. *)
Definition hot_plasma : FusionSimulator.State :=
  FusionSimulator.mkState (Fin 1e8) (Fin 1e20) (Fin 3.0) (Fin 1e8) (Fin 0.9)
    burn (Fin 10) [].

(** A stand-in for the conversion of a number to a string: it tells the
    special values apart and prints every finite number alike. *)
Definition plain_toString (x : num) : string :=
  match x with
  | Fin _ => "0"
  | PInf => "Infinity"
  | NInf => "-Infinity"
  | NaN => "NaN"
  end.

End Inputs.

(** ** Runs of calls *)

Module Session.

Import FusionSimulator.

(** A call on a simulator. *)
Inductive Call : Type :=
| CallStep (deltaTime : option num)
| CallControl (control : Control).

Definition call (c : Call) (sim : t) : t :=
  match c with
  | CallStep deltaTime => step deltaTime sim
  | CallControl control => applyControl control sim
  end.

(** A run of calls on a simulator, in order. *)
Definition calls (cs : list Call) (sim : t) : t :=
  fold_left (fun s c => call c s) cs sim.

Definition is_step (c : Call) : bool :=
  match c with CallStep _ => true | CallControl _ => false end.

(** The number of [step] calls of a run. *)
Definition ticks (cs : list Call) : nat := List.length (filter is_step cs).

End Session.

Module Learning.

Import DecisionEngine.
Local Open Scope R_scope.

Section Host.

Variable Number_toString : num -> string.

(** A run of [decide] calls, each with its clock reading and snapshot: the
    decisions returned, in order, and the engine after the run. *)
Fixpoint decides (inputs : list (num * FusionSimulator.State)) (eng : t)
  : list Decision * t :=
  match inputs with
  | [] => ([], eng)
  | (now, fusionState) :: rest =>
      let '(d, eng) := decide Number_toString now fusionState eng in
      let '(ds, eng) := decides rest eng in
      (d :: ds, eng)
  end.

(** The engines a program can hold: built by the constructor, then driven
    by [decide]. *)
Inductive reachable : t -> Prop :=
| reach_new (arg : ConfigArg) : reachable (new arg)
| reach_decide (now : num) (fusionState : FusionSimulator.State) (eng : t) :
    reachable eng ->
    reachable (snd (decide Number_toString now fusionState eng)).

End Host.

(** The two assignments [learn] makes to a pattern. *)
Definition observe (score : num) (p : Pattern) : Pattern :=
  mkPattern (pat_temperature p) (pat_density p) (pat_stability p)
            (pat_fusionPower p) (add (count p) (Fin 1))
            (add (totalScore p) score).

(** The pattern [learn] creates for a bucket it sees for the first time. *)
Definition seed (st : FusionSimulator.State) : Pattern :=
  mkPattern (FusionSimulator.temperature st) (FusionSimulator.density st)
            (FusionSimulator.stability st) (FusionSimulator.fusionPower st)
            (Fin 0) (Fin 0).

(** The success indicator of a snapshot. *)
Definition success (st : FusionSimulator.State) : num :=
  if gt (FusionSimulator.stability st) (Fin 0.5) then Fin 1 else Fin 0.

(** What holds of the map of a reachable engine. *)
Definition counted (e : string * Pattern) : Prop :=
  exists c s : R,
    count (snd e) = Fin c /\ totalScore (snd e) = Fin s
    /\ 1 <= c /\ 0 <= s <= c.

(** The occurrence count of a pattern as a real, 0 when it is no number. *)
Definition count_of (p : Pattern) : R :=
  match count p with Fin c => c | _ => 0%R end.

(** The occurrence counts of all the patterns, added up. *)
Definition total_count (m : list (string * Pattern)) : R :=
  fold_right (fun e acc => (count_of (snd e) + acc)%R) 0%R m.

(** The element [getPatterns] builds for an entry of the map. *)
Definition report (e : string * Pattern) : PatternReport :=
  {| rep_key := fst e;
     rep_temperature := pat_temperature (snd e);
     rep_density := pat_density (snd e);
     rep_stability := pat_stability (snd e);
     rep_fusionPower := pat_fusionPower (snd e);
     rep_count := count (snd e);
     rep_totalScore := totalScore (snd e);
     avgScore :=
       if gt (count (snd e)) (Fin 0)
       then div (totalScore (snd e)) (count (snd e))
       else Fin 0 |}.

(** The comparison [getPatterns] sorts with. *)
Definition by_score (a b : PatternReport) : num :=
  sub (avgScore b) (avgScore a).

(** [a] may stand before [b] in the ranking: both average scores are
    numbers and that of [a] is not the smaller. *)
Definition ranked_before (a b : PatternReport) : Prop :=
  exists x y : R,
    avgScore a = Fin x /\ avgScore b = Fin y
    /\ (y <= x)%R.

(** The average score of a report is the quotient of its score by its
    count, a number between 0 and 1. *)
Definition averaged (r : PatternReport) : Prop :=
  exists c s : R,
    rep_count r = Fin c
    /\ rep_totalScore r = Fin s
    /\ avgScore r = Fin (s / c)
    /\ (1 <= c)%R /\ (0 <= s / c <= 1)%R.

End Learning.

Module Driving.

Import TwinCosmos.

Section Host.

Variable Number_toString : num -> string.

(** A run of [step] calls on a TwinCosmos, each with its clock readings and
    its [deltaTime]: the object after the run. *)
Definition steps (inputs : list (Clock * option num)) (tc : t) : t :=
  fold_left (fun tc '(clock, deltaTime) =>
               snd (step Number_toString clock deltaTime tc))
            inputs tc.

End Host.

(** The time counter after the [deltaTime]s of a run are added to it. *)
Definition advance (tm : num) (inputs : list (Clock * option num)) : num :=
  fold_left
    (fun tm '(_, deltaTime) => add tm (default_arg (Fin 1.0) deltaTime))
    inputs tm.

(** What holds of a TwinCosmos after [n] steps: [f], [d] and [m] tell
    which of the fusion, decision and memory components it was given. *)
Definition twin_inv (f d m : bool) (n : nat) (tc : t) : Prop :=
  initialized (state tc) = true
  /\ decisions (state tc) = []
  /\ match fusion (components tc) with
     | Some sim =>
         f = true
         /\ FusionSimulator.time (FusionSimulator.state sim)
            = time (state tc)
         /\ List.length (FusionSimulator.getHistory sim) = Nat.min n 1000
     | None => f = false
     end
  /\ match decision (components tc) with
     | Some eng =>
         d = true
         /\ List.length (DecisionEngine.getHistory eng)
            = (if f then n else 0%nat)
     | None => d = false
     end
  /\ match memory (components tc) with
     | Some mem =>
         m = true
         /\ NoDup (map fst (MemoryView.entries mem))
         /\ (List.length (MemoryView.entries mem)
             <= (if f && d then n else 0))%nat
     | None => m = false
     end.

(** What holds of the store of a TwinCosmos: every entry was written by
    [step], under a key that starts with "step_", and holds a decision of
    the engine's history. *)
Definition logged (tc : t) : Prop :=
  match memory (components tc) with
  | Some mem =>
      Forall
        (fun e =>
           String.prefix "step_" (fst e) = true
           /\ meta_type (Memory.meta (snd e)) = "decision"%string
           /\ match decision (components tc) with
              | Some eng =>
                  In (Memory.value (snd e)) (DecisionEngine.getHistory eng)
              | None => False
              end)
        (MemoryView.entries mem)
  | None => True
  end.

End Driving.

(** * Properties *)

(** ** Numbers *)

Section NumFacts.

Local Open Scope R_scope.

Lemma Rltb_true (a b : R) : a < b -> Rltb a b = true.
Proof. unfold Rltb; destruct (Rlt_dec a b); intuition. Qed.

Lemma Rltb_false (a b : R) : ~ a < b -> Rltb a b = false.
Proof. unfold Rltb; destruct (Rlt_dec a b); intuition. Qed.

Lemma Reqb_true (a b : R) : a = b -> Reqb a b = true.
Proof. unfold Reqb; destruct (Req_dec_T a b); intuition. Qed.

Lemma Reqb_false (a b : R) : a <> b -> Reqb a b = false.
Proof. unfold Reqb; destruct (Req_dec_T a b); intuition. Qed.

Lemma Rltb_spec (a b : R) : Rltb a b = true <-> a < b.
Proof. unfold Rltb; destruct (Rlt_dec a b); intuition congruence. Qed.

Lemma Reqb_spec (a b : R) : Reqb a b = true <-> a = b.
Proof. unfold Reqb; destruct (Req_dec_T a b); intuition congruence. Qed.

Lemma div_fin (a b : R) : b <> 0 -> div (Fin a) (Fin b) = Fin (a / b).
Proof. intros H; simpl; now rewrite Reqb_false. Qed.

Lemma gt_fin (a b : R) : gt (Fin a) (Fin b) = Rltb b a.
Proof. reflexivity. Qed.

Lemma lt_fin (a b : R) : lt (Fin a) (Fin b) = Rltb a b.
Proof. reflexivity. Qed.


Lemma add_NaN_r (x : num) : add x NaN = NaN.
Proof. now destruct x. Qed.

Lemma div_NaN_r (x : num) : div x NaN = NaN.
Proof. now destruct x. Qed.

Lemma Fin_inj (a b : R) : Fin a = Fin b -> a = b.
Proof. now intros [= ->]. Qed.

Lemma truthy_fin (a : R) : truthy (Fin a) = true <-> a <> 0.
Proof.
  simpl; unfold Reqb; destruct (Req_dec_T a 0); simpl; intuition congruence.
Qed.

(** The corners of the arithmetic. *)
Example division_by_zero :
  div (Fin 1) (Fin 0) = PInf /\ div (Fin (-1)) (Fin 0) = NInf
  /\ div (Fin 0) (Fin 0) = NaN.
Proof.
  cbn [div]. rewrite Reqb_true by reflexivity. unfold signed_inf.
  rewrite (Reqb_false 1), (Reqb_false (-1)), (Reqb_true 0) by lra.
  rewrite (Rltb_true 0 1), (Rltb_false 0 (-1)) by lra. now repeat split.
Qed.

Example infinity_times_zero : mul PInf (Fin 0) = NaN.
Proof. cbn [mul]. unfold signed_inf. now rewrite Reqb_true. Qed.

Example log10_corners :
  Math_log10 (Fin 0) = NInf /\ Math_log10 (Fin (-1)) = NaN
  /\ Math_log10 (Fin 1) = Fin 0.
Proof.
  cbn [Math_log10].
  rewrite (Rltb_false 0 0), (Reqb_true 0), (Rltb_false 0 (-1)),
    (Reqb_false (-1)), (Rltb_true 0 1) by lra.
  repeat split. rewrite ln_1. f_equal. lra.
Qed.

Example NaN_compares_false (x : num) :
  lt NaN x = false /\ gt NaN x = false /\ truthy NaN = false.
Proof. now destruct x. Qed.

(** Multiplying by [1 + 0] changes no number. *)
Lemma mul_one_plus_zero (x : num) : mul x (add (Fin 1) (Fin 0)) = x.
Proof.
  destruct x; simpl; trivial.
  - f_equal; lra.
  - unfold signed_inf; rewrite Reqb_false, Rltb_true by lra; reflexivity.
  - unfold signed_inf; rewrite Reqb_false, Rltb_true by lra; reflexivity.
Qed.

End NumFacts.

(** Decides the tests on real constants that block a reduction. *)
Ltac Rdecide :=
  repeat match goal with
  | |- context [Rltb ?a ?b] =>
      first [ rewrite (Rltb_true a b) by lra
            | rewrite (Rltb_false a b) by lra ]
  | |- context [Reqb ?a ?b] =>
      first [ rewrite (Reqb_false a b) by lra
            | rewrite (Reqb_true a b) by lra ]
  end.

(** ** The simulator *)

Section SimulatorFacts.

Import FusionSimulator Tick Inputs.
Local Open Scope R_scope.

Ltac step_norm :=
  cbv beta iota zeta delta
    [step_state set_time set_temperature set_density set_confinementTime
     set_fusionPower set_stability set_phase set_history snapshot shift
     temperature density confinementTime fusionPower stability phase time
     history calculateStability calculateFusionPower].

(** The statements of [step], executed in order, leave the closed forms. *)
Lemma step_state_closed (params : V5Params) (deltaTime : num) (st : State) :
  step_state params deltaTime st =
  mkState (next_temperature deltaTime st) (next_density deltaTime st)
    (next_confinementTime deltaTime st) (calculateFusionPower st)
    (calculateV5Barrier params (triple_input deltaTime st))
    (next_phase deltaTime st) (add (time st) deltaTime)
    (trim (history st ++ [next_snapshot params deltaTime st])).
Proof.
  destruct st as [T n tau P s ph tm h].
  unfold next_snapshot, next_phase, triple_input, next_confinementTime,
    next_density, next_temperature, trim.
  step_norm.
  repeat match goal with
  | |- context [if andb ?a ?b then _ else _] => destruct (andb a b)
  | |- context [if gt ?a ?b then _ else _] => destruct (gt a b)
  end; step_norm;
  match goal with
  | |- context [if Nat.ltb ?a ?b then _ else _] => destruct (Nat.ltb a b)
  end; reflexivity.
Qed.

Lemma step_phase (dt : option num) (sim : t) :
  phase (state (step dt sim)) =
  next_phase (default_arg (Fin 1.0) dt) (state sim).
Proof. unfold step; simpl; now rewrite step_state_closed. Qed.

Lemma step_temperature (dt : option num) (sim : t) :
  temperature (state (step dt sim)) =
  next_temperature (default_arg (Fin 1.0) dt) (state sim).
Proof. unfold step; simpl; now rewrite step_state_closed. Qed.

Lemma step_density (dt : option num) (sim : t) :
  density (state (step dt sim)) =
  next_density (default_arg (Fin 1.0) dt) (state sim).
Proof. unfold step; simpl; now rewrite step_state_closed. Qed.

Lemma step_fusionPower (dt : option num) (sim : t) :
  fusionPower (state (step dt sim)) = calculateFusionPower (state sim).
Proof. unfold step; simpl; now rewrite step_state_closed. Qed.


Lemma step_history (dt : option num) (sim : t) :
  history (state (step dt sim)) =
  trim (history (state sim) ++ [snapshot (state (step dt sim))]).
Proof.
  unfold step; simpl; rewrite step_state_closed; reflexivity.
Qed.

Lemma step_v5Params (dt : option num) (sim : t) :
  v5Params (step dt sim) = v5Params sim.
Proof. reflexivity. Qed.

Lemma step_config (dt : option num) (sim : t) :
  config (step dt sim) = config sim.
Proof. reflexivity. Qed.

Lemma calculateFusionPower_fin (st : State) (n T : R) :
  density st = Fin n -> temperature st = Fin T -> 1 + T / 1.16e7 / 15 <> 0 ->
  calculateFusionPower st = Fin (power_of n T).
Proof.
  intros Hn HT Hd. unfold calculateFusionPower. rewrite Hn, HT.
  rewrite (div_fin T) by lra. rewrite (div_fin _ 15) by lra.
  cbn [Math_pow mul add]. rewrite div_fin by exact Hd. reflexivity.
Qed.

Lemma next_temperature_fin (st : State) (n T d : R) :
  density st = Fin n -> temperature st = Fin T -> 1 + T / 1.16e7 / 15 <> 0 ->
  next_temperature (Fin d) st =
  Fin ((T + (50e6 + power_of n T) * d / 1000) * (1 - 0.01 * d)).
Proof.
  intros Hn HT Hd. unfold next_temperature.
  rewrite (calculateFusionPower_fin st n T), HT by assumption.
  cbn [add mul sub]. rewrite div_fin by lra. reflexivity.
Qed.

Lemma next_density_fin (st : State) (n d : R) :
  density st = Fin n ->
  next_density (Fin d) st = Fin ((n + 1e18 * d) * (1 - 0.001 * d)).
Proof. intros Hn. unfold next_density. rewrite Hn. reflexivity. Qed.

Lemma cool_start_tick1 :
  let s1 := step None (new cool_start) in
  temperature (state s1) = Fin cool_T1 /\ density (state s1) = Fin cool_n1
  /\ phase (state s1) = burn.
Proof.
  cbv zeta. rewrite step_temperature, step_density, step_phase.
  unfold next_phase, default_arg.
  rewrite (calculateFusionPower_fin _ 1e19 1.011e8);
    [ | reflexivity | reflexivity | lra ].
  rewrite (next_temperature_fin _ 1e19 1.011e8);
    [ | reflexivity | reflexivity | lra ].
  rewrite (next_density_fin _ 1e19) by reflexivity.
  rewrite !gt_fin. unfold power_of. Rdecide.
  repeat split; reflexivity.
Qed.

Lemma cool_start_tick2 :
  phase (state (step None (step None (new cool_start)))) = ramp_up.
Proof.
  destruct cool_start_tick1 as (HT & Hn & _).
  rewrite step_phase. unfold next_phase, default_arg.
  assert (Hd : 1 + cool_T1 / 1.16e7 / 15 <> 0)
    by (unfold cool_T1, power_of; lra).
  rewrite (calculateFusionPower_fin _ _ _ Hn HT Hd).
  rewrite (next_temperature_fin _ _ _ _ Hn HT Hd).
  rewrite !gt_fin. unfold cool_T1, cool_n1, power_of. Rdecide.
  reflexivity.
Qed.

Lemma next_phase_cases (dt : num) (st : State) :
  next_phase dt st = burn \/ next_phase dt st = ramp_up
  \/ next_phase dt st = phase st.
Proof.
  unfold next_phase.
  destruct (gt (next_temperature dt st) (Fin 1e8)
            && gt (calculateFusionPower st) (Fin 1e6)); auto.
  destruct (gt (next_temperature dt st) (Fin 5e7)); auto.
Qed.

Lemma steps_cons (dt : option num) (dts : list (option num)) (sim : t) :
  steps (dt :: dts) sim = steps dts (step dt sim).
Proof. reflexivity. Qed.

Lemma steps_snoc (dts : list (option num)) (dt : option num) (sim : t) :
  steps (dts ++ [dt]) sim = step dt (steps dts sim).
Proof. unfold steps. now rewrite fold_left_app. Qed.

Lemma reachable_steps (dts : list (option num)) (sim : t) :
  reachable sim -> reachable (steps dts sim).
Proof.
  revert sim. induction dts as [| dt dts IH]; intros sim H; trivial.
  rewrite steps_cons. apply IH. now constructor.
Qed.

(** A property of the phase that every tick keeps is kept by every run. *)
Lemma steps_phase_invariant (I : Phase -> Prop) :
  (forall p dt st, I p -> phase st = p -> I (next_phase dt st)) ->
  forall dts sim, I (phase (state sim)) -> I (phase (state (steps dts sim))).
Proof.
  intros Hstep dts. induction dts as [| dt dts IH]; intros sim H; trivial.
  rewrite steps_cons. apply IH. rewrite step_phase. now apply Hstep with (p := phase (state sim)).
Qed.

(** C1 (as the code has it): once the phase has left ['ignition'] no run of
    ticks brings it back there, and from ['burn'] every later phase is
    ['burn'] or ['ramp-up']. *)
Theorem phase_never_back_to_ignition (sim : t) (dts : list (option num)) :
  phase (state sim) <> ignition ->
  phase (state (steps dts sim)) <> ignition
  /\ (phase (state sim) = burn ->
      phase (state (steps dts sim)) = burn
      \/ phase (state (steps dts sim)) = ramp_up).
Proof.
  intros H. split.
  - apply (steps_phase_invariant (fun p => p <> ignition)); [| exact H].
    intros p dt st Hp E.
    destruct (next_phase_cases dt st) as [F | [F | F]]; congruence.
  - intros Hb.
    apply (steps_phase_invariant (fun p => p = burn \/ p = ramp_up));
      [| now left].
    intros p dt st Hp E.
    destruct (next_phase_cases dt st) as [F | [F | F]]; rewrite F; auto.
    rewrite E; exact Hp.
Qed.

(** The run of [cool_start]: in ['burn'] after its first tick, and not back
    in ['ignition'] after its second. *)
Lemma phase_never_back_to_ignition_witness :
  let sim := step None (new cool_start) in
  phase (state sim) = burn
  /\ phase (state (steps [None] sim)) <> ignition
  /\ (phase (state (steps [None] sim)) = burn
      \/ phase (state (steps [None] sim)) = ramp_up).
Proof.
  cbv zeta. destruct cool_start_tick1 as (_ & _ & Hb).
  split; [exact Hb |].
  assert (Hi : phase (state (step None (new cool_start))) <> ignition)
    by (rewrite Hb; discriminate).
  destruct (phase_never_back_to_ignition _ [None] Hi) as [H1 H2].
  split; [exact H1 | exact (H2 Hb)].
Defined.

(** C1 (as stated) fails: a simulator built with
    [{initialTemperature: 1.011e8, initialDensity: 1e19}] is in ['burn']
    after its first default tick and back in ['ramp-up'] after its second. *)
Lemma burn_back_to_ramp_up :
  let s1 := steps [None] (new cool_start) in
  let s2 := steps [None; None] (new cool_start) in
  phase (state s1) = burn /\ phase (state s2) = ramp_up
  /\ (rank (phase (state s2)) < rank (phase (state s1)))%nat.
Proof.
  cbv zeta. unfold steps; cbn [fold_left].
  rewrite cool_start_tick2.
  destruct cool_start_tick1 as (_ & _ & ->).
  repeat split. cbn [rank]. lia.
Qed.

(** C3: the power stored by a tick is the power [calculateFusionPower] gave
    before the update; after one tick of [deltaTime = 1.0] from
    [temperature = 1e7], [density = 5e19] it is the reactivity formula at
    those two values, and differs from the formula at the updated ones. *)
Theorem first_tick_stores_pre_tick_power :
  (forall dt sim,
      fusionPower (state (step dt sim)) = calculateFusionPower (state sim))
  /\ let sim0 :=
       new demo_start in
     let sim1 := step (Some (Fin 1.0)) sim0 in
     let T_keV := 1e7 / 1.16e7 in
     let sigma_v := 1.1e-21 * T_keV ^ 2 / (1 + T_keV / 15) in
     let E_fusion := 17.6 * 1.602e-13 in
     fusionPower (state sim1) = Fin ((5e19) ^ 2 * sigma_v * E_fusion)
     /\ fusionPower (state sim1) <> calculateFusionPower (state sim1).
Proof.
  split; [exact step_fusionPower |]. cbv zeta.
  rewrite step_fusionPower.
  rewrite (calculateFusionPower_fin _ 5e19 1e7);
    [ | reflexivity | reflexivity | lra ].
  split.
  - f_equal. unfold power_of. simpl pow. lra.
  - assert (HT := step_temperature (Some (Fin 1.0))
        (new demo_start)).
    assert (Hn := step_density (Some (Fin 1.0))
        (new demo_start)).
    unfold default_arg in HT, Hn.
    rewrite (next_temperature_fin _ 5e19 1e7) in HT;
      [ | reflexivity | reflexivity | lra ].
    rewrite (next_density_fin _ 5e19) in Hn by reflexivity.
    rewrite (calculateFusionPower_fin _ _ _ Hn HT)
      by (unfold power_of; lra).
    intros E. apply Fin_inj in E. revert E. unfold power_of. lra.
Qed.


End SimulatorFacts.

(** ** The history *)

Section HistoryFacts.

Import FusionSimulator Tick Inputs.

Lemma tl_skipn {A : Type} (k : nat) (l : list A) :
  tl (skipn k l) = skipn (S k) l.
Proof.
  revert l. induction k as [| k IH]; intros [| x l]; simpl; trivial.
Qed.

Lemma trim_lastn (l : list Snapshot) (x : Snapshot) :
  trim (lastn 1000 l ++ [x]) = lastn 1000 (l ++ [x]).
Proof.
  unfold trim, lastn. rewrite !length_app, length_skipn. cbn [List.length].
  destruct (Nat.ltb_spec 1000 (List.length l - (List.length l - 1000) + 1)) as [H | H].
  - rewrite skipn_app.
    replace (List.length l + 1 - 1000 - List.length l) with 0 by lia.
    replace (List.length l + 1 - 1000) with (S (List.length l - 1000)) by lia.
    change (skipn 0 [x]) with [x]. rewrite <- tl_skipn.
    destruct (skipn (List.length l - 1000) l) eqn:E; [| reflexivity].
    apply (f_equal (@List.length _)) in E. rewrite length_skipn in E.
    cbn [List.length] in E. lia.
  - replace (List.length l - 1000) with 0 by lia.
    replace (List.length l + 1 - 1000) with 0 by lia. reflexivity.
Qed.

Lemma pushed_snoc (dts : list (option num)) (dt : option num) (sim : t) :
  pushed (dts ++ [dt]) sim =
  pushed dts sim ++ [snapshot (state (steps (dts ++ [dt]) sim))].
Proof.
  unfold pushed. rewrite length_app. cbn [List.length].
  rewrite seq_app, map_app. cbn [seq map]. f_equal.
  - apply map_ext_in. intros k Hk. apply in_seq in Hk. unfold pushed_by.
    rewrite firstn_app. replace (k - List.length dts) with 0 by lia.
    cbn [firstn]. now rewrite app_nil_r.
  - unfold pushed_by. replace (1 + List.length dts) with (List.length (dts ++ [dt]))
      by (rewrite length_app; cbn [List.length]; lia).
    now rewrite firstn_all.
Qed.

(** The history holds the last 1000 snapshots pushed. *)
Lemma history_steps (dts : list (option num)) (sim : t) :
  history (state sim) = [] ->
  history (state (steps dts sim)) = lastn 1000 (pushed dts sim).
Proof.
  intros H0. induction dts as [| dt dts IH] using rev_ind.
  - exact H0.
  - rewrite pushed_snoc, <- trim_lastn, <- IH, steps_snoc.
    apply step_history.
Qed.

(** C4: after [n] ticks of a new simulator the history has [min n 1000]
    entries, the last 1000 pushed, oldest first; after 1001 ticks it has
    1000 entries and its first is the snapshot pushed by tick 2. *)
Theorem history_is_bounded_fifo (arg : ConfigArg) (dts : list (option num)) :
  let h := history (state (steps dts (new arg))) in
  List.length h = Nat.min (List.length dts) 1000
  /\ h = skipn (List.length dts - 1000) (pushed dts (new arg))
  /\ (List.length dts = 1001 ->
      List.length h = 1000
      /\ nth_error h 0 = Some (pushed_by dts (new arg) 2)).
Proof.
  cbv zeta. rewrite history_steps by reflexivity. unfold lastn.
  assert (Hp : List.length (pushed dts (new arg)) = List.length dts)
    by (unfold pushed; now rewrite length_map, length_seq).
  rewrite Hp. split; [| split].
  - rewrite length_skipn, Hp. lia.
  - reflexivity.
  - intros H. split; [rewrite length_skipn, Hp; lia |].
    rewrite H. replace (1001 - 1000) with 1 by lia.
    rewrite nth_error_skipn. unfold pushed. rewrite H.
    rewrite nth_error_map.
    replace (nth_error (seq 1 1001) (1 + 0)) with (Some 2); [reflexivity |].
    symmetry. rewrite nth_error_seq. reflexivity.
Qed.

(** 1001 default ticks of a default simulator. *)
Lemma history_is_bounded_fifo_witness :
  let dts := repeat (@None num) 1001 in
  let h := history (state (steps dts (new no_config))) in
  List.length dts = 1001
  /\ List.length h = 1000
  /\ nth_error h 0 = Some (pushed_by dts (new no_config) 2).
Proof.
  cbv zeta. 
  assert (H : List.length (repeat (@None num) 1001) = 1001) by apply repeat_length.
  split; [exact H |].
  exact (proj2 (proj2 (history_is_bounded_fifo no_config (repeat None 1001))) H).
Defined.

End HistoryFacts.

(** ** Controls and stability *)

Section ControlFacts.

Import FusionSimulator Tick Inputs.
Local Open Scope R_scope.

Lemma set_density_same (st : State) : set_density (density st) st = st.
Proof. now destruct st. Qed.

Lemma applyControl_fueling (f : num) (sim : t) :
  f <> NaN ->
  applyControl (mkControl None (Some f) None) sim =
  mkSim (config sim)
        (set_density (mul (density (state sim)) (add (Fin 1) f)) (state sim))
        (v5Params sim).
Proof.
  intros Hf. unfold applyControl. cbn [present_truthy ctl_heating ctl_fueling ctl_magneticField].
  destruct (truthy f) eqn:E; [reflexivity |].
  destruct f as [a | | |]; try discriminate; [| congruence].
  cbn [truthy] in E. apply negb_false_iff, Reqb_spec in E. subst a.
  rewrite mul_one_plus_zero, set_density_same. now destruct sim.
Qed.

(** C8 (as the code has it): a heating value changes nothing; a fueling
    value other than NaN multiplies the density by [1 + f] and changes
    nothing else; a magnetic-field value that is truthy (neither 0 nor NaN)
    replaces [config.magneticField] and changes nothing else, and a falsy one
    changes nothing. *)
Theorem applyControl_effect (sim : t) :
  (forall h, applyControl (mkControl (Some h) None None) sim = sim)
  /\ (forall f, f <> NaN ->
        applyControl (mkControl None (Some f) None) sim =
        mkSim (config sim)
              (set_density (mul (density (state sim)) (add (Fin 1) f))
                           (state sim))
              (v5Params sim))
  /\ (forall b, truthy b = true ->
        applyControl (mkControl None None (Some b)) sim =
        mkSim (set_magneticField b (config sim)) (state sim) (v5Params sim))
  /\ (forall b, truthy b = false ->
        applyControl (mkControl None None (Some b)) sim = sim).
Proof.
  repeat split.
  - intros h. unfold applyControl. cbn. now destruct (truthy h).
  - intros f Hf. now apply applyControl_fueling.
  - intros b Hb. unfold applyControl. cbn. now rewrite Hb.
  - intros b Hb. unfold applyControl. cbn. now rewrite Hb.
Qed.

(** Fueling by 0.1, a field of 6 T and a field of 0 on a default simulator. *)
Lemma applyControl_effect_witness :
  let sim := new no_config in
  applyControl (mkControl None (Some (Fin 0.1)) None) sim =
  mkSim (config sim)
        (set_density (mul (density (state sim)) (add (Fin 1) (Fin 0.1)))
                     (state sim))
        (v5Params sim)
  /\ applyControl (mkControl None None (Some (Fin 6.0))) sim =
     mkSim (set_magneticField (Fin 6.0) (config sim)) (state sim)
           (v5Params sim)
  /\ applyControl (mkControl None None (Some (Fin 0))) sim = sim.
Proof.
  cbv zeta.
  destruct (applyControl_effect (new no_config)) as (_ & Hf & Hb & Hz).
  split; [| split].
  - apply Hf. discriminate.
  - apply Hb. cbn [truthy]. now rewrite Reqb_false by lra.
  - apply Hz. cbn [truthy]. now rewrite Reqb_true by lra.
Defined.

(** C8 (as stated) fails: a magnetic-field value of [0] does not replace
    [config.magneticField], which keeps its default [5.0]; a fueling value
    of [NaN] leaves the density as it was. *)
Lemma applyControl_skips_falsy :
  let sim := new no_config in
  magneticField (config (applyControl (mkControl None None (Some (Fin 0))) sim))
  = Fin 5.0
  /\ magneticField
       (config (applyControl (mkControl None None (Some (Fin 0))) sim))
     <> Fin 0
  /\ density (state (applyControl (mkControl None (Some NaN) None) sim))
     = Fin 1e20
  /\ mul (density (state sim)) (add (Fin 1) NaN) = NaN.
Proof.
  cbv zeta.
  assert (E : applyControl (mkControl None None (Some (Fin 0))) (new no_config)
              = new no_config).
  { unfold applyControl. cbn [present_truthy ctl_heating ctl_fueling ctl_magneticField truthy].
    now rewrite Reqb_true by lra. }
  rewrite E. repeat split.
  intros H. apply Fin_inj in H. lra.
Qed.

End ControlFacts.

Section StabilityFacts.

Import FusionSimulator Tick Inputs.
Local Open Scope R_scope.











End StabilityFacts.

(** ** The decision engine *)

Section DecisionFacts.

Import DecisionEngine Inputs.
Local Open Scope R_scope.

Variable Number_toString : num -> string.





Lemma compareState_of_key (st : FusionSimulator.State) (key : string) :
  compareState st (OfKey key) = Fin 0.
Proof.
  unfold compareState. cbn [keys fold_left pattern_prop gt lt].
  now rewrite Rltb_false by lra.
Qed.

(** What [calculateMatchScore] computes: the learned patterns never raise
    it above zero. *)
Lemma calculateMatchScore_value (eng : t) (st : FusionSimulator.State) :
  calculateMatchScore eng st =
  match patterns eng with [] => Fin 0.5 | _ :: _ => Fin 0 end.
Proof.
  unfold calculateMatchScore. destruct (patterns eng) as [| e ps]; trivial.
  generalize (e :: ps). intros l.
  induction l as [| [k p] l IH]; trivial.
  cbn [fold_left]. rewrite compareState_of_key. cbn [gt lt].
  now rewrite Rltb_false by lra.
Qed.

Lemma compareState_same (st : FusionSimulator.State) (T n s P : R)
    (c ts : num) :
  FusionSimulator.temperature st = Fin T ->
  FusionSimulator.density st = Fin n ->
  FusionSimulator.stability st = Fin s ->
  FusionSimulator.fusionPower st = Fin P ->
  0 <= T -> 0 <= n -> 0 <= s -> 0 <= P ->
  compareState st (OfValue (mkPattern (Fin T) (Fin n) (Fin s) (Fin P) c ts))
  = Fin 1.
Proof.
  intros HT Hn Hs HP H1 H2 H3 H4. unfold compareState. unfold keys.
  assert (Hz : forall x y : R, 0 <= x -> Rltb (Rabs (x - x) / (x + y)) 0.2 = true).
  { intros x y Hx. apply Rltb_true.
    replace (x - x) with 0 by lra. rewrite Rabs_R0. unfold Rdiv.
    rewrite Rmult_0_l. lra. }
  do 4 (cbn [fold_left pattern_prop state_prop Key_eqb pat_temperature
             pat_density pat_stability pat_fusionPower];
        rewrite ?HT, ?Hn, ?Hs, ?HP; cbn [sub Math_abs add];
        rewrite div_fin by lra; cbn [lt]; rewrite Hz by assumption).
  cbn [fold_left add gt lt].
  rewrite Rltb_true by lra. rewrite div_fin by lra. f_equal. lra.
Qed.

Lemma learn_patterns_fresh (st : FusionSimulator.State) (d : Decision)
    (eng : t) :
  patterns eng = [] ->
  patterns (learn Number_toString st d eng) =
  [(hashState Number_toString st,
    mkPattern (FusionSimulator.temperature st) (FusionSimulator.density st)
      (FusionSimulator.stability st) (FusionSimulator.fusionPower st)
      (add (Fin 0) (Fin 1))
      (add (Fin 0)
           (if gt (FusionSimulator.stability st) (Fin 0.5)
            then Fin 1 else Fin 0)))].
Proof.
  intros H. unfold learn. rewrite H. cbn [JSMap.has negb].
  match goal with
  | |- patterns (if ?c then _ else _) = _ => destruct c
  end;
    cbn [patterns set_currentBest set_patterns JSMap.set JSMap.modify];
    rewrite String.eqb_refl; cbn [JSMap.modify];
    rewrite String.eqb_refl; reflexivity.
Qed.

(** C2 fails on the code: with a pattern learned from a snapshot, the match
    score of that very snapshot is 0, where the best similarity over the
    learned patterns is 1. *)
Theorem match_score_ignores_patterns (now : num) :
  let eng := snd (decide Number_toString now hot_plasma (new no_config)) in
  patterns eng <> []
  /\ calculateMatchScore eng hot_plasma = Fin 0
  /\ Documented.matchScore eng hot_plasma = Fin 1
  /\ (forall eng' st,
        calculateMatchScore eng' st =
        match patterns eng' with [] => Fin 0.5 | _ :: _ => Fin 0 end).
Proof.
  cbv zeta.
  assert (Hp : patterns (snd (decide Number_toString now hot_plasma
                                     (new no_config)))
               = [(hashState Number_toString hot_plasma,
                   mkPattern (Fin 1e8) (Fin 1e20) (Fin 0.9) (Fin 1e8)
                             (add (Fin 0) (Fin 1))
                             (add (Fin 0) (Fin 1)))]).
  { unfold decide. cbn [snd set_history patterns].
    rewrite learn_patterns_fresh by reflexivity.
    cbn [hot_plasma FusionSimulator.stability gt lt].
    now rewrite Rltb_true by lra. }
  split; [rewrite Hp; discriminate |]. split; [| split].
  - rewrite calculateMatchScore_value, Hp. reflexivity.
  - unfold Documented.matchScore. rewrite Hp. cbn [fold_left].
    rewrite (compareState_same hot_plasma 1e8 1e20 0.9 1e8);
      try reflexivity; try lra.
    cbn [gt lt]. now rewrite Rltb_true by lra.
  - exact calculateMatchScore_value.
Qed.

Lemma learn_currentBest (st : FusionSimulator.State) (d : Decision)
    (eng : t) :
  currentBest (learn Number_toString st d eng) =
  if gt (if gt (FusionSimulator.stability st) (Fin 0.5)
         then Fin 1 else Fin 0) (Fin 0.8)
  then mkActions (heating (actions d)) (fueling (actions d))
                 (magnetic (actions d))
  else currentBest eng.
Proof.
  unfold learn.
  destruct (negb (JSMap.has (hashState Number_toString st) (patterns eng)));
    match goal with
    | |- currentBest (if ?c then _ else _) = _ => destruct c
    end; reflexivity.
Qed.

Lemma set_history_currentBest (h : list Decision) (eng : t) :
  currentBest (set_history h eng) = currentBest eng.
Proof. reflexivity. Qed.

(** C7: the success indicator of a [decide] call is 1 when the snapshot's
    stability exceeds 0.5 and 0 otherwise, so it exceeds 0.8 exactly when
    the stability exceeds 0.5; the call leaves in [currentBest] the three
    labels it chose in that case, and the three labels it found there
    otherwise. *)
Theorem currentBest_after_decide (now : num)
    (fusionState : FusionSimulator.State) (eng : t) :
  let successScore :=
    if gt (FusionSimulator.stability fusionState) (Fin 0.5)
    then Fin 1 else Fin 0 in
  let decision := fst (decide Number_toString now fusionState eng) in
  let eng' := snd (decide Number_toString now fusionState eng) in
  gt successScore (Fin 0.8)
  = gt (FusionSimulator.stability fusionState) (Fin 0.5)
  /\ actions decision
     = mkActions (algorithm (decideHeating eng fusionState))
                 (algorithm (decideFuel eng fusionState))
                 (algorithm (decideMagnetic eng fusionState))
  /\ currentBest eng' =
     if gt (FusionSimulator.stability fusionState) (Fin 0.5)
     then actions decision
     else currentBest eng.
Proof.
  cbv zeta. unfold decide. cbn [fst snd]. rewrite set_history_currentBest.
  rewrite learn_currentBest. cbn [actions heating fueling magnetic].
  destruct (gt (FusionSimulator.stability fusionState) (Fin 0.5)).
  - cbn [gt lt]. rewrite Rltb_true by lra. repeat split.
  - cbn [gt lt]. rewrite Rltb_false by lra. repeat split.
Qed.

End DecisionFacts.

(** ** The driver and its store *)

Section DriverFacts.

Import TwinCosmos.
Variable Number_toString : num -> string.

Lemma step_initialized (clock : Clock) (deltaTime : option num) (tc : t) :
  initialized (state tc) = true ->
  exists res tc',
    step Number_toString clock deltaTime tc = (Return res, tc')
    /\ res_time res
       = add (time (state tc)) (default_arg (Fin 1.0) deltaTime).
Proof.
  intros H. unfold step. rewrite H. cbn [negb].
  destruct (fusion (components tc)) as [sim |].
  - destruct (decision (set_fusion
                (Some (FusionSimulator.step
                         (Some (default_arg (Fin 1.0) deltaTime)) sim))
                (components tc))) as [eng |].
    + destruct (DecisionEngine.decide Number_toString (at_decide clock)
                  (FusionSimulator.getState
                     (FusionSimulator.step
                        (Some (default_arg (Fin 1.0) deltaTime)) sim)) eng)
        as [d eng'].
      do 2 eexists. split; reflexivity.
    + do 2 eexists. split; reflexivity.
  - destruct (decision (components tc)); do 2 eexists; split; reflexivity.
Qed.

(** C6: a [step] on a TwinCosmos whose [initialized] flag is still false
    throws the error "TwinCosmos not initialized", whatever [deltaTime], and
    leaves the object, its time counter included, as it was.  The flag is
    false from the constructor until [initialize] sets it, and once it is
    set [step] returns. *)
Theorem step_before_initialize_throws (clock : Clock) (deltaTime : option num)
    (cfg : Config) (cs : Components) (tm : num)
    (ds : list DecisionEngine.Decision) :
  let tc := mkTwin cfg cs (mkState false tm ds) in
  step Number_toString clock deltaTime tc
  = (Throw (mkError "TwinCosmos not initialized"), tc)
  /\ (forall arg,
        step Number_toString clock deltaTime (new arg)
        = (Throw (mkError "TwinCosmos not initialized"), new arg))
  /\ (forall tc',
        exists res tc'',
          step Number_toString clock deltaTime (initialize tc')
          = (Return res, tc'')).
Proof.
  cbv zeta. split; [reflexivity |]. split; [reflexivity |].
  intros tc'.
  destruct (step_initialized clock deltaTime (initialize tc') eq_refl)
    as (res & tc'' & E & _).
  now exists res, tc''.
Qed.

End DriverFacts.

Section MemoryFacts.

Import Memory MemoryView.
Variables V M : Type.
Variable JSON_stringify : V -> string.

Lemma prefix_app (q s : string) :
  String.prefix q s = true <-> exists post, s = (q ++ post)%string.
Proof.
  revert s. induction q as [| c q IH]; intros s.
  - split; [intros _; now exists s | now destruct s].
  - destruct s as [| d s]; cbn [String.prefix].
    + split; [discriminate | intros [post H]; discriminate].
    + destruct (Ascii.ascii_dec c d) as [-> | Hne].
      * rewrite IH. split; intros [post H]; exists post.
        -- cbn. now rewrite H.
        -- cbn in H. now injection H.
      * split; [discriminate |]. intros [post H]. cbn in H. congruence.
Qed.


Lemma retrieve_loop (query : string) (d : list (string * Entry V M))
    (acc : list (Found V M)) :
  fold_left
    (fun results '(key, entry) =>
       if includes key query
          || includes (JSON_stringify (value entry)) query
       then results ++ [mkFound key (value entry) (meta entry)
                                (timestamp entry)]
       else results)
    d acc
  = acc ++ map found (filter (matches JSON_stringify query) d).
Proof.
  revert acc. induction d as [| [key entry] d IH]; intros acc.
  - cbn. now rewrite app_nil_r.
  - cbn [fold_left filter]. rewrite IH. unfold matches at 2.
    cbn [fst snd].
    destruct (includes key query
              || includes (JSON_stringify (value entry)) query).
    + cbn [map]. now rewrite <- app_assoc.
    + reflexivity.
Qed.

Lemma retrieve_filter (query : string) (mem : Memory.t V M) :
  retrieve JSON_stringify query mem =
  map found (filter (matches JSON_stringify query) (entries mem)).
Proof.
  unfold retrieve, entries. destruct (data mem) as [d |]; [| reflexivity].
  now rewrite retrieve_loop.
Qed.



End MemoryFacts.


(** * Further properties *)

(** ** More on the simulator *)

Section SimulatorMore.

Import FusionSimulator Tick Session.
Local Open Scope R_scope.

(** X1: [normalizeInput] is a clamp to [0, 1]: it keeps a number of that
    interval, sends every other number (the infinities too) to the nearer
    end, keeps NaN, and applying it twice is applying it once. *)
Theorem normalizeInput_clamps (x : num) :
  normalizeInput (normalizeInput x) = normalizeInput x
  /\ (x = NaN <-> normalizeInput x = NaN)
  /\ (x <> NaN -> exists r, normalizeInput x = Fin r /\ 0 <= r <= 1)
  /\ (forall r, x = Fin r ->
        (0 <= r <= 1 -> normalizeInput x = Fin r)
        /\ (r < 0 -> normalizeInput x = Fin 0)
        /\ (1 < r -> normalizeInput x = Fin 1))
  /\ (x = PInf -> normalizeInput x = Fin 1)
  /\ (x = NInf -> normalizeInput x = Fin 0).
Proof.
  assert (Hc : forall a, Rmax 0 (Rmin 1 a) = a \/ Rmax 0 (Rmin 1 a) = 0
                         \/ Rmax 0 (Rmin 1 a) = 1).
  { intros a. unfold Rmax, Rmin.
    destruct (Rle_dec 1 a); destruct (Rle_dec 0 _); lra. }
  assert (Hm : forall a, 0 <= a <= 1 -> Rmax 0 (Rmin 1 a) = a).
  { intros a Ha. unfold Rmax, Rmin.
    destruct (Rle_dec 1 a); destruct (Rle_dec 0 _); lra. }
  assert (Hb : forall a, 0 <= Rmax 0 (Rmin 1 a) <= 1).
  { intros a. unfold Rmax, Rmin.
    destruct (Rle_dec 1 a); destruct (Rle_dec 0 _); lra. }
  assert (H01 : Rmax 0 1 = 1) by (unfold Rmax; destruct (Rle_dec 0 1); lra).
  split; [| split; [| split; [| split; [| split]]]].
  - destruct x as [a | | |]; cbn [normalizeInput Math_min Math_max]; trivial.
    + f_equal. apply Hm, Hb.
    + f_equal. rewrite H01. apply Hm. lra.
    + f_equal. apply Hm. lra.
  - destruct x; cbn [normalizeInput Math_min Math_max];
      split; congruence.
  - intros Hx. destruct x as [a | | |]; try congruence;
      cbn [normalizeInput Math_min Math_max]; eexists; split;
      try reflexivity; try apply Hb; try lra.
  - intros r ->. cbn [normalizeInput Math_min Math_max]. repeat split.
    + intros Hr. f_equal. now apply Hm.
    + intros Hr. f_equal. unfold Rmax, Rmin.
      destruct (Rle_dec 1 r); destruct (Rle_dec 0 _); lra.
    + intros Hr. f_equal. unfold Rmax, Rmin.
      destruct (Rle_dec 1 r); destruct (Rle_dec 0 _); lra.
  - intros ->. cbn [normalizeInput Math_min Math_max]. now rewrite H01.
  - intros ->. reflexivity.
Qed.




Lemma applyControl_phase (control : Control) (sim : t) :
  phase (state (applyControl control sim)) = phase (state sim)
  /\ history (state (applyControl control sim)) = history (state sim)
  /\ time (state (applyControl control sim)) = time (state sim).
Proof.
  unfold applyControl.
  destruct (present_truthy (ctl_heating control));
    destruct (ctl_fueling control) as [f |]; try destruct (truthy f);
    destruct (ctl_magneticField control) as [b |]; try destruct (truthy b);
    now repeat split.
Qed.

(** X3: the phase ['decline'] is never reached: a simulator built by the
    constructor and driven by [step] and [applyControl] is in ['ignition'],
    ['ramp-up'] or ['burn']. *)
Theorem decline_is_never_reached (sim : t) :
  reachable sim ->
  phase (state sim) <> decline
  /\ (phase (state sim) = ignition \/ phase (state sim) = ramp_up
      \/ phase (state sim) = burn).
Proof.
  intros H.
  assert (G : phase (state sim) = ignition \/ phase (state sim) = ramp_up
              \/ phase (state sim) = burn).
  { induction H as [arg | dt sim _ IH | control sim _ IH].
    - now left.
    - rewrite step_phase.
      destruct (next_phase_cases (default_arg (Fin 1.0) dt) (state sim))
        as [E | [E | E]]; rewrite E; auto.
    - now rewrite (proj1 (applyControl_phase control sim)). }
  split; [| exact G]. destruct G as [E | [E | E]]; rewrite E; discriminate.
Qed.

(** Two default ticks of a default simulator. *)
Lemma decline_is_never_reached_witness :
  phase (state (steps [None; None] (new no_config))) <> decline.
Proof.
  apply (decline_is_never_reached (steps [None; None] (new no_config))).
  apply reachable_steps. constructor.
Defined.

Lemma trim_length (h : list Snapshot) :
  (List.length h <= 1001)%nat ->
  List.length (trim h) = Nat.min (List.length h) 1000.
Proof.
  intros H. unfold trim.
  destruct (Nat.ltb_spec 1000 (List.length h)) as [Hl | Hl].
  - destruct h; cbn [List.length tl] in *; lia.
  - lia.
Qed.

Lemma calls_snoc (cs : list Call) (c : Call) (sim : t) :
  calls (cs ++ [c]) sim = call c (calls cs sim).
Proof. unfold calls. now rewrite fold_left_app. Qed.

(** X4: however [step] and [applyControl] calls are interleaved on a new
    simulator, the history holds [min n 1000] entries after [n] calls of
    [step]: controls never touch it. *)
Theorem history_length_with_controls (arg : ConfigArg) (cs : list Call) :
  List.length (history (state (calls cs (new arg))))
  = Nat.min (ticks cs) 1000.
Proof.
  induction cs as [| c cs IH] using rev_ind; [reflexivity |].
  rewrite calls_snoc. unfold ticks in *. rewrite filter_app, length_app.
  destruct c as [dt | control]; cbn [call filter is_step List.length].
  - rewrite step_history, trim_length; rewrite length_app; cbn [List.length];
      rewrite IH; lia.
  - rewrite (proj1 (proj2 (applyControl_phase control _))), IH. lia.
Qed.

(** X5: after every [step] the last entry of the history is the snapshot
    of the state the call leaves: [getHistory]'s last element agrees with
    [getState] on time, temperature, density, power, stability and phase. *)
Theorem last_history_entry_is_current (dt : option num) (sim : t) :
  let st := getState (step dt sim) in
  exists older,
    getHistory (step dt sim) = older ++ [snapshot st]
    /\ snap_time (snapshot st) = time st
    /\ snap_temperature (snapshot st) = temperature st
    /\ snap_density (snapshot st) = density st
    /\ snap_fusionPower (snapshot st) = fusionPower st
    /\ snap_stability (snapshot st) = stability st
    /\ snap_phase (snapshot st) = phase st.
Proof.
  cbv zeta. unfold getHistory, getState. rewrite step_history.
  set (s := snapshot (state (step dt sim))). unfold trim.
  destruct (Nat.ltb_spec 1000 (List.length (history (state sim) ++ [s])))
    as [Hl | Hl].
  - destruct (history (state sim)) as [| e h].
    + cbn [app List.length] in Hl. lia.
    + exists h. now repeat split.
  - exists (history (state sim)). now repeat split.
Qed.

End SimulatorMore.

Section TickMore.

Import FusionSimulator Tick.
Local Open Scope R_scope.





End TickMore.

(** ** Maps *)

Section MapFacts.

Context {A : Type}.
Implicit Types (m : list (string * A)) (key k : string).

Lemma has_get key m :
  JSMap.has key m = match JSMap.get key m with Some _ => true | None => false end.
Proof.
  induction m as [| [k v] m IH]; cbn [JSMap.has JSMap.get]; trivial.
  now destruct (String.eqb k key).
Qed.

Lemma has_In key m : JSMap.has key m = true <-> In key (map fst m).
Proof.
  induction m as [| [k v] m IH]; cbn [JSMap.has map fst In].
  - split; [discriminate | tauto].
  - destruct (String.eqb_spec k key) as [-> | Hne]; [tauto |].
    rewrite IH. split; [tauto | intros [H | H]; congruence].
Qed.

Lemma set_absent key (v : A) m :
  JSMap.has key m = false -> JSMap.set key v m = m ++ [(key, v)].
Proof.
  induction m as [| [k w] m IH]; cbn [JSMap.has JSMap.set app]; trivial.
  destruct (String.eqb k key); [discriminate |]. intros H. now rewrite IH.
Qed.

Lemma set_present_keys key (v : A) m :
  JSMap.has key m = true -> map fst (JSMap.set key v m) = map fst m.
Proof.
  induction m as [| [k w] m IH]; cbn [JSMap.has JSMap.set map fst];
    [discriminate |].
  destruct (String.eqb k key); cbn [map fst]; trivial.
  intros H. now rewrite IH.
Qed.

Lemma get_set_same key (v : A) m : JSMap.get key (JSMap.set key v m) = Some v.
Proof.
  induction m as [| [k w] m IH]; cbn [JSMap.set JSMap.get].
  - now rewrite String.eqb_refl.
  - destruct (String.eqb k key) eqn:E; cbn [JSMap.get]; now rewrite E.
Qed.

Lemma get_set_other key k (v : A) m :
  k <> key -> JSMap.get k (JSMap.set key v m) = JSMap.get k m.
Proof.
  intros Hne. induction m as [| [k' w] m IH]; cbn [JSMap.set JSMap.get].
  - destruct (String.eqb_spec key k); congruence.
  - destruct (String.eqb_spec k' key) as [-> | Hk]; cbn [JSMap.get].
    + destruct (String.eqb_spec key k); congruence.
    + now rewrite IH.
Qed.

Lemma modify_keys key (f : A -> A) m :
  map fst (JSMap.modify key f m) = map fst m.
Proof.
  induction m as [| [k w] m IH]; cbn [JSMap.modify map fst]; trivial.
  destruct (String.eqb k key); cbn [map fst]; now rewrite ?IH.
Qed.

Lemma modify_modify key (f g : A -> A) m :
  JSMap.modify key g (JSMap.modify key f m)
  = JSMap.modify key (fun x => g (f x)) m.
Proof.
  induction m as [| [k w] m IH]; cbn [JSMap.modify]; trivial.
  destruct (String.eqb k key) eqn:E; cbn [JSMap.modify]; rewrite E;
    now rewrite ?IH.
Qed.

Lemma get_modify_same key (f : A -> A) m :
  JSMap.get key (JSMap.modify key f m) = option_map f (JSMap.get key m).
Proof.
  induction m as [| [k w] m IH]; cbn [JSMap.modify JSMap.get]; trivial.
  destruct (String.eqb k key) eqn:E; cbn [JSMap.get]; now rewrite E.
Qed.

Lemma get_modify_other key k (f : A -> A) m :
  k <> key -> JSMap.get k (JSMap.modify key f m) = JSMap.get k m.
Proof.
  intros Hne. induction m as [| [k' w] m IH]; cbn [JSMap.modify JSMap.get];
    trivial.
  destruct (String.eqb_spec k' key) as [-> | Hk]; cbn [JSMap.get].
  - destruct (String.eqb_spec key k); congruence.
  - now rewrite IH.
Qed.

Lemma modify_absent_app key (f : A -> A) (v : A) m :
  JSMap.has key m = false ->
  JSMap.modify key f (m ++ [(key, v)]) = m ++ [(key, f v)].
Proof.
  induction m as [| [k w] m IH]; cbn [JSMap.has JSMap.modify app].
  - now rewrite String.eqb_refl.
  - destruct (String.eqb k key); [discriminate |]. intros H. now rewrite IH.
Qed.

Lemma get_absent_app key k (v : A) m :
  k <> key -> JSMap.get k (m ++ [(key, v)]) = JSMap.get k m.
Proof.
  intros Hne. induction m as [| [k' w] m IH]; cbn [JSMap.get app].
  - destruct (String.eqb_spec key k); congruence.
  - now rewrite IH.
Qed.

Lemma set_keys_NoDup key (v : A) m :
  NoDup (map fst m) -> NoDup (map fst (JSMap.set key v m)).
Proof.
  intros H. destruct (JSMap.has key m) eqn:E.
  - now rewrite set_present_keys.
  - rewrite set_absent, map_app by exact E. cbn [map fst].
    apply NoDup_app; [exact H | constructor; [tauto | constructor] |].
    intros a Ha [<- | []]. apply has_In in Ha. congruence.
Qed.

End MapFacts.

(** ** More on the decision engine *)

Section DecisionMore.

Import DecisionEngine Learning Inputs.
Local Open Scope R_scope.

Variable Number_toString : num -> string.

Lemma learn_patterns (st : FusionSimulator.State) (d : Decision) (eng : t) :
  patterns (learn Number_toString st d eng) =
  JSMap.modify (hashState Number_toString st) (observe (success st))
    (if JSMap.has (hashState Number_toString st) (patterns eng)
     then patterns eng
     else JSMap.set (hashState Number_toString st) (seed st) (patterns eng)).
Proof.
  transitivity
    (JSMap.modify (hashState Number_toString st)
       (fun p => mkPattern (pat_temperature p) (pat_density p)
                   (pat_stability p) (pat_fusionPower p) (count p)
                   (add (totalScore p) (success st)))
       (JSMap.modify (hashState Number_toString st)
          (fun p => mkPattern (pat_temperature p) (pat_density p)
                      (pat_stability p) (pat_fusionPower p)
                      (add (count p) (Fin 1)) (totalScore p))
          (if JSMap.has (hashState Number_toString st) (patterns eng)
           then patterns eng
           else JSMap.set (hashState Number_toString st) (seed st)
                          (patterns eng)))).
  - unfold learn.
    destruct (JSMap.has (hashState Number_toString st) (patterns eng));
      cbn [negb];
      match goal with
      | |- patterns (if ?c then _ else _) = _ => destruct c
      end; reflexivity.
  - now rewrite modify_modify.
Qed.

Lemma decide_patterns (now : num) (st : FusionSimulator.State) (eng : t) :
  patterns (snd (decide Number_toString now st eng)) =
  JSMap.modify (hashState Number_toString st) (observe (success st))
    (if JSMap.has (hashState Number_toString st) (patterns eng)
     then patterns eng
     else JSMap.set (hashState Number_toString st) (seed st) (patterns eng)).
Proof. unfold decide. cbn [snd]. apply learn_patterns. Qed.

Lemma decide_history (now : num) (st : FusionSimulator.State) (eng : t) :
  history (snd (decide Number_toString now st eng))
  = history eng ++ [fst (decide Number_toString now st eng)].
Proof.
  unfold decide, learn. cbn [fst snd].
  destruct (negb (JSMap.has (hashState Number_toString st) (patterns eng)));
    match goal with
    | |- history (set_history (history (if ?c then _ else _) ++ _) _) = _ =>
        destruct c
    end; reflexivity.
Qed.


(** X6: a pattern is one aggregate per bucket.  A [decide] call on a
    snapshot whose bucket is already in the map adds no entry: it adds 1 to
    the bucket's count and the success indicator to its score, and keeps
    the values the bucket was first seen with.  On a new bucket it appends
    one entry, seeded with the snapshot's values, of count 1.  No other
    bucket changes. *)
Theorem decide_accumulates_per_bucket (now : num)
    (st : FusionSimulator.State) (eng : t) :
  let key := hashState Number_toString st in
  let after := patterns (snd (decide Number_toString now st eng)) in
  match JSMap.get key (patterns eng) with
  | Some p =>
      JSMap.get key after
      = Some (mkPattern (pat_temperature p) (pat_density p) (pat_stability p)
                        (pat_fusionPower p) (add (count p) (Fin 1))
                        (add (totalScore p) (success st)))
      /\ map fst after = map fst (patterns eng)
  | None =>
      after
      = patterns eng
        ++ [(key,
             mkPattern (FusionSimulator.temperature st)
               (FusionSimulator.density st) (FusionSimulator.stability st)
               (FusionSimulator.fusionPower st) (add (Fin 0) (Fin 1))
               (add (Fin 0) (success st)))]
  end
  /\ (forall k, k <> key -> JSMap.get k after = JSMap.get k (patterns eng)).
Proof.
  cbv zeta. rewrite decide_patterns, has_get.
  destruct (JSMap.get (hashState Number_toString st) (patterns eng))
    as [p |] eqn:E.
  - split; [split |].
    + now rewrite get_modify_same, E.
    + apply modify_keys.
    + intros k Hk. now apply get_modify_other.
  - assert (Hh : JSMap.has (hashState Number_toString st) (patterns eng)
                 = false) by now rewrite has_get, E.
    rewrite set_absent, modify_absent_app by exact Hh. split; [reflexivity |].
    intros k Hk. now apply get_absent_app.
Qed.

Lemma success_cases (st : FusionSimulator.State) :
  success st = Fin 1 \/ success st = Fin 0.
Proof. unfold success. destruct (gt _ _); auto. Qed.

Lemma observe_counted (st : FusionSimulator.State)
    (m : list (string * Pattern)) (key : string) :
  JSMap.has key m = true -> Forall counted m ->
  Forall counted (JSMap.modify key (observe (success st)) m)
  /\ total_count (JSMap.modify key (observe (success st)) m)
     = total_count m + 1.
Proof.
  induction m as [| [k p] m IH]; cbn [JSMap.has JSMap.modify];
    [discriminate |].
  intros Hh Hf. inversion Hf as [| e l Hp Hm]; subst.
  destruct (String.eqb k key).
  - destruct Hp as (c & s & Hc & Hs & H1 & H2). cbn [snd] in Hc, Hs. split.
    + constructor; [| exact Hm]. unfold counted, observe. cbn [snd count totalScore].
      rewrite Hc, Hs.
      destruct (success_cases st) as [-> | ->]; cbn [add];
        do 2 eexists; (split; [reflexivity |]); (split; [reflexivity |]); lra.
    + cbn [total_count fold_right snd]. unfold count_of, observe.
      cbn [count]. rewrite Hc. cbn [add]. fold (total_count m). lra.
  - destruct (IH Hh Hm) as [IH1 IH2]. split; [now constructor |].
    cbn [total_count fold_right]. fold (total_count m).
    fold (total_count (JSMap.modify key (observe (success st)) m)). lra.
Qed.

Lemma total_count_app (m : list (string * Pattern)) (e : string * Pattern) :
  total_count (m ++ [e]) = total_count m + count_of (snd e).
Proof.
  induction m as [| x m IH]; cbn [total_count fold_right app].
  - lra.
  - fold (total_count (m ++ [e])). fold (total_count m). lra.
Qed.

(** What [decide] keeps of the pattern map. *)
Lemma reachable_patterns_invariant (eng : t) :
  reachable Number_toString eng ->
  NoDup (map fst (patterns eng))
  /\ Forall counted (patterns eng)
  /\ total_count (patterns eng) = INR (List.length (history eng)).
Proof.
  induction 1 as [arg | now st eng _ (Hn & Hf & Ht)].
  - cbn. split; [constructor | split; [constructor | reflexivity]].
  - rewrite decide_patterns, decide_history, length_app. cbn [List.length].
    rewrite Nat.add_1_r, S_INR, <- Ht.
    destruct (JSMap.has (hashState Number_toString st) (patterns eng))
      eqn:E.
    + rewrite modify_keys. split; [exact Hn |].
      now apply observe_counted.
    + rewrite set_absent, modify_absent_app by exact E. split; [| split].
      * rewrite <- (set_absent _ (observe (success st) (seed st))) by exact E.
        now apply set_keys_NoDup.
      * apply Forall_app. split; [exact Hf |]. constructor; [| constructor].
        unfold counted, observe, seed. cbn [snd count totalScore add].
        destruct (success_cases st) as [-> | ->]; cbn [add];
          do 2 eexists; (split; [reflexivity |]); (split; [reflexivity |]);
          lra.
      * rewrite total_count_app. unfold count_of, observe, seed.
        cbn [snd count add]. lra.
Qed.

Lemma total_count_bounds_length (m : list (string * Pattern)) :
  Forall counted m -> INR (List.length m) <= total_count m.
Proof.
  induction 1 as [| e m (c & s & Hc & _ & H1 & _) _ IH].
  - cbn. lra.
  - cbn [List.length total_count fold_right]. fold (total_count m).
    rewrite S_INR. unfold count_of. rewrite Hc. lra.
Qed.

(** X7: in every engine built by the constructor and driven by [decide],
    the keys of the pattern map are distinct, every pattern has a count of
    at least 1 and a score between 0 and its count, the counts add up to
    the number of decisions made, and there are no more patterns than
    decisions. *)
Theorem patterns_count_decisions (eng : t) :
  reachable Number_toString eng ->
  NoDup (map fst (patterns eng))
  /\ Forall counted (patterns eng)
  /\ total_count (patterns eng) = INR (List.length (history eng))
  /\ (List.length (patterns eng) <= List.length (history eng))%nat.
Proof.
  intros H. destruct (reachable_patterns_invariant eng H) as (Hn & Hf & Ht).
  repeat split; trivial.
  apply INR_le. rewrite <- Ht. now apply total_count_bounds_length.
Qed.

End DecisionMore.

Section DecisionRules.

Import DecisionEngine Learning Inputs.
Local Open Scope R_scope.
Local Open Scope string_scope.

Variable Number_toString : num -> string.

Lemma decide_actions (now : num) (st : FusionSimulator.State) (eng : t) :
  actions (fst (decide Number_toString now st eng))
  = mkActions (algorithm (decideHeating eng st))
              (algorithm (decideFuel eng st))
              (algorithm (decideMagnetic eng st)).
Proof. reflexivity. Qed.

Lemma decide_currentBest (now : num) (st : FusionSimulator.State) (eng : t) :
  currentBest (snd (decide Number_toString now st eng)) =
  if gt (FusionSimulator.stability st) (Fin 0.5)
  then mkActions (algorithm (decideHeating eng st))
                 (algorithm (decideFuel eng st))
                 (algorithm (decideMagnetic eng st))
  else currentBest eng.
Proof.
  unfold decide. cbn [snd]. rewrite set_history_currentBest.
  rewrite learn_currentBest. cbn [actions heating fueling magnetic].
  destruct (gt (FusionSimulator.stability st) (Fin 0.5)); cbn [gt lt].
  - now rewrite Rltb_true by lra.
  - now rewrite Rltb_false by lra.
Qed.

Lemma stable_is_not_low (s : num) :
  gt s (Fin 0.5) = true -> lt s (Fin 0.3) = false /\ lt s (Fin 0.4) = false.
Proof.
  destruct s as [a | | |]; cbn [gt lt]; try discriminate; [| now split].
  intros H. apply Rltb_spec in H. now rewrite !Rltb_false by lra.
Qed.

(** X8: the labels kept as current best stay in a fixed set.  In every
    engine built by the constructor and driven by [decide], the current
    best heating label is "PID" or "Adaptive", the fueling label "Feedback"
    or "Pulsed", the magnetic label "Adaptive" or "Optimized": the labels
    chosen at low stability never become the current best.  So every
    decision's heating label is "PID", "ML-PID" or "Adaptive", its fueling
    label "Pulsed", "Predictive" or "Feedback", and its magnetic label
    "AI", "Optimized" or "Adaptive". *)
Theorem labels_stay_in_fixed_sets (eng : t) :
  reachable Number_toString eng ->
  (In (heating (currentBest eng)) ["PID"; "Adaptive"]
   /\ In (fueling (currentBest eng)) ["Feedback"; "Pulsed"]
   /\ In (magnetic (currentBest eng)) ["Adaptive"; "Optimized"])
  /\ forall now st,
       let chosen := actions (fst (decide Number_toString now st eng)) in
       In (heating chosen) ["PID"; "ML-PID"; "Adaptive"]
       /\ In (fueling chosen) ["Pulsed"; "Predictive"; "Feedback"]
       /\ In (magnetic chosen) ["AI"; "Optimized"; "Adaptive"].
Proof.
  intros H.
  assert (G : In (heating (currentBest eng)) ["PID"; "Adaptive"]
              /\ In (fueling (currentBest eng)) ["Feedback"; "Pulsed"]
              /\ In (magnetic (currentBest eng)) ["Adaptive"; "Optimized"]).
  { induction H as [arg | now st eng _ (Hh & Hf & Hm)].
    - cbn. tauto.
    - rewrite decide_currentBest.
      destruct (gt (FusionSimulator.stability st) (Fin 0.5)) eqn:E;
        [| tauto].
      destruct (stable_is_not_low _ E) as [E3 E4].
      unfold decideHeating, decideFuel, decideMagnetic. rewrite E3, E4.
      cbn [heating fueling magnetic].
      destruct (lt (FusionSimulator.temperature st) (Fin 5e7));
        destruct (lt (FusionSimulator.density st) (Fin 5e19));
        destruct (Phase_eqb (FusionSimulator.phase st) burn);
        cbn [algorithm In] in *; tauto. }
  split; [exact G |]. destruct G as (Hh & Hf & Hm).
  intros now st. cbv zeta. rewrite decide_actions.
  unfold decideHeating, decideFuel, decideMagnetic.
  cbn [heating fueling magnetic].
  destruct (lt (FusionSimulator.temperature st) (Fin 5e7));
    destruct (lt (FusionSimulator.density st) (Fin 5e19));
    destruct (lt (FusionSimulator.stability st) (Fin 0.3));
    destruct (lt (FusionSimulator.stability st) (Fin 0.4));
    destruct (Phase_eqb (FusionSimulator.phase st) burn);
    cbn [algorithm In] in *; tauto.
Qed.

(** X9: in the burn phase no label comes from the current best: the three
    labels a [decide] call chooses are the same whatever the engine has
    learned.  Below 5e7 K the heating label is "PID" whatever the engine
    and the phase. *)
Theorem burn_decisions_ignore_engine (now now' : num)
    (st : FusionSimulator.State) (eng eng' : t) :
  (FusionSimulator.phase st = burn ->
   actions (fst (decide Number_toString now st eng))
   = actions (fst (decide Number_toString now' st eng')))
  /\ (lt (FusionSimulator.temperature st) (Fin 5e7) = true ->
      heating (actions (fst (decide Number_toString now st eng))) = "PID").
Proof.
  rewrite !decide_actions. unfold decideHeating, decideFuel, decideMagnetic.
  split.
  - intros ->. cbn [Phase_eqb].
    destruct (lt (FusionSimulator.temperature st) (Fin 5e7));
      destruct (lt (FusionSimulator.density st) (Fin 5e19));
      destruct (lt (FusionSimulator.stability st) (Fin 0.3));
      destruct (lt (FusionSimulator.stability st) (Fin 0.4)); reflexivity.
  - intros ->. reflexivity.
Qed.



(** X11: the similarity [compareState] computes between a snapshot and a
    pattern is a number between 0 and 1, whatever the values compared (NaN
    and the infinities included): each of the four keys counts in the
    total, and a key whose distance is NaN counts as unmatched.  With
    non-negative finite values a snapshot has similarity 1 to the pattern
    seeded from it. *)
Theorem compareState_in_unit_interval (st : FusionSimulator.State)
    (p : Pattern) :
  (exists r : R, compareState st (OfValue p) = Fin r /\ 0 <= r <= 1)
  /\ (forall T n s P : R,
        FusionSimulator.temperature st = Fin T ->
        FusionSimulator.density st = Fin n ->
        FusionSimulator.stability st = Fin s ->
        FusionSimulator.fusionPower st = Fin P ->
        0 <= T -> 0 <= n -> 0 <= s -> 0 <= P ->
        compareState st
          (OfValue (mkPattern (Fin T) (Fin n) (Fin s) (Fin P)
                              (count p) (totalScore p)))
        = Fin 1).
Proof.
  split; [| intros; now apply compareState_same].
  unfold compareState, keys.
  cbn [fold_left pattern_prop Key_eqb add].
  repeat match goal with
  | |- context [if lt ?a ?b then _ else _] => destruct (lt a b)
  end; cbn [fold_left pattern_prop Key_eqb add gt lt];
    rewrite Rltb_true by lra; rewrite div_fin by lra;
    eexists; (split; [reflexivity | lra]).
Qed.

End DecisionRules.

Section DecisionRuns.

Import DecisionEngine Learning.

Variable Number_toString : num -> string.

(** X12: the decision history is append-only.  A run of [decide] calls
    appends the decisions it returns, in call order, to the history it
    found; each carries the clock reading of its call and the
    temperature, density, stability and phase of its snapshot. *)
Theorem decisions_are_appended
    (inputs : list (num * FusionSimulator.State)) (eng : t) :
  let ds := fst (decides Number_toString inputs eng) in
  let eng' := snd (decides Number_toString inputs eng) in
  getHistory eng' = getHistory eng ++ ds
  /\ List.length ds = List.length inputs
  /\ map timestamp ds = map fst inputs
  /\ map decision_state ds
     = map (fun i => mkStateView (FusionSimulator.temperature (snd i))
                       (FusionSimulator.density (snd i))
                       (FusionSimulator.stability (snd i))
                       (FusionSimulator.phase (snd i)))
           inputs.
Proof.
  cbv zeta. unfold getHistory. revert eng.
  induction inputs as [| [now st] inputs IH]; intros eng.
  - cbn. now rewrite app_nil_r.
  - cbn [decides].
    destruct (decide Number_toString now st eng) as [d eng1] eqn:E.
    specialize (IH eng1).
    destruct (decides Number_toString inputs eng1) as [ds eng2].
    cbn [fst snd] in *. destruct IH as (H1 & H2 & H3 & H4).
    assert (Hh := decide_history Number_toString now st eng).
    rewrite E in Hh. cbn [fst snd] in Hh.
    assert (Hd : d = fst (decide Number_toString now st eng))
      by now rewrite E.
    repeat split.
    + rewrite H1, Hh, <- app_assoc. reflexivity.
    + cbn [List.length]. now rewrite H2.
    + cbn [map fst]. rewrite H3. f_equal. now rewrite Hd.
    + cbn [map snd]. rewrite H4. f_equal. now rewrite Hd.
Qed.

(** X13: the engine's barrier and steepness cannot be configured to a
    falsy value: whatever the constructor is given, they are neither 0 nor
    NaN, a barrier or a steepness of 0 being replaced by 0.5 and 1.5.  The
    decision threshold is taken as given, 0 included. *)
Theorem engine_parameters_are_truthy (arg : ConfigArg) :
  truthy (barrier (v5Params (new arg))) = true
  /\ truthy (gamma (v5Params (new arg))) = true
  /\ (arg_barrier arg = Some (Fin 0) ->
      barrier (v5Params (new arg)) = Fin 0.5)
  /\ (arg_gamma arg = Some (Fin 0) -> gamma (v5Params (new arg)) = Fin 1.5)
  /\ (forall th, arg_decisionThreshold arg = Some th ->
                 decisionThreshold (config (new arg)) = th).
Proof.
  assert (H5 : truthy (Fin 0.5) = true)
    by (cbn [truthy]; now rewrite Reqb_false by lra).
  assert (H15 : truthy (Fin 1.5) = true)
    by (cbn [truthy]; now rewrite Reqb_false by lra).
  assert (H0 : truthy (Fin 0) = false)
    by (cbn [truthy]; now rewrite Reqb_true by reflexivity).
  cbn [new v5Params barrier gamma config decisionThreshold].
  repeat split.
  - unfold or_num. destruct (arg_barrier arg) as [b |]; [| exact H5].
    unfold or_else. destruct (truthy b) eqn:E; [exact E | exact H5].
  - unfold or_num. destruct (arg_gamma arg) as [b |]; [| exact H15].
    unfold or_else. destruct (truthy b) eqn:E; [exact E | exact H15].
  - intros ->. unfold or_num, or_else. now rewrite H0.
  - intros ->. unfold or_num, or_else. now rewrite H0.
  - intros th ->. reflexivity.
Qed.

End DecisionRuns.

(** ** More on the store *)

Section StoreMore.

Import Memory MemoryView.
Variables V M : Type.
Variable JSON_stringify : V -> string.




Lemma filter_all {A : Type} (f : A -> bool) (l : list A) :
  (forall x, In x l -> f x = true) -> filter f l = l.
Proof.
  induction l as [| x l IH]; intros H; cbn [filter]; trivial.
  rewrite (H x (or_introl eq_refl)), IH; trivial.
  intros y Hy. apply H. now right.
Qed.

(** X14: [store] keeps one entry per key.  After [store(key, v, meta)]
    looking up [key] gives the entry just stored and every other key gives
    what it gave before; a key already present keeps its position and the
    number of entries, a new key is appended; distinct keys stay
    distinct; and the call returns [true]. *)
Theorem store_keeps_one_entry_per_key (now : num) (key : string) (v : V)
    (meta : M) (mem : Memory.t V M) :
  let mem' := snd (store now key v meta mem) in
  fst (store now key v meta mem) = true
  /\ JSMap.get key (entries mem') = Some (mkEntry v meta now)
  /\ (forall k, k <> key ->
        JSMap.get k (entries mem') = JSMap.get k (entries mem))
  /\ map fst (entries mem')
     = (if JSMap.has key (entries mem)
        then map fst (entries mem)
        else map fst (entries mem) ++ [key])
  /\ (NoDup (map fst (entries mem)) -> NoDup (map fst (entries mem'))).
Proof.
  cbv zeta. unfold store. cbn [fst snd].
  assert (E : entries (mkMemory (Some (JSMap.set key (mkEntry v meta now)
                                          (entries mem))))
              = JSMap.set key (mkEntry v meta now) (entries mem))
    by reflexivity.
  change (match data mem with None => [] | Some d => d end)
    with (entries mem).
  rewrite E. repeat split.
  - apply get_set_same.
  - intros k Hk. now apply get_set_other.
  - destruct (JSMap.has key (entries mem)) eqn:H.
    + now apply set_present_keys.
    + rewrite set_absent, map_app by exact H. reflexivity.
  - apply set_keys_NoDup.
Qed.


End StoreMore.

(** ** More on the driver *)

Section DriverMore.

Import TwinCosmos Driving.
Variable Number_toString : num -> string.

Lemma set_length {A : Type} (key : string) (v : A) (m : list (string * A)) :
  (List.length (JSMap.set key v m) <= S (List.length m))%nat.
Proof.
  induction m as [| [k w] m IH]; cbn [JSMap.set List.length]; [lia |].
  destruct (String.eqb k key); cbn [List.length]; lia.
Qed.

Lemma step_time (clock : Clock) (deltaTime : option num) (tc : t) :
  initialized (state tc) = true ->
  time (state (snd (step Number_toString clock deltaTime tc)))
  = add (time (state tc)) (default_arg (Fin 1.0) deltaTime).
Proof.
  intros H. unfold step. rewrite H. cbn [negb].
  destruct (fusion (components tc)) as [sim |].
  - destruct (decision (set_fusion _ (components tc))) as [eng |].
    + destruct (DecisionEngine.decide _ _ _ eng) as [d eng'].
      destruct (memory (set_decision _ _)) as [mem |]; reflexivity.
    + reflexivity.
  - destruct (decision (components tc)); reflexivity.
Qed.

Lemma fusion_step_time (d : num) (sim : FusionSimulator.t) :
  FusionSimulator.time
    (FusionSimulator.state (FusionSimulator.step (Some d) sim))
  = add (FusionSimulator.time (FusionSimulator.state sim)) d.
Proof.
  unfold FusionSimulator.step. cbn [FusionSimulator.state default_arg].
  now rewrite step_state_closed.
Qed.

Lemma fusion_step_length (dt : option num) (sim : FusionSimulator.t)
    (n : nat) :
  List.length (FusionSimulator.getHistory sim) = Nat.min n 1000 ->
  List.length (FusionSimulator.getHistory (FusionSimulator.step dt sim))
  = Nat.min (S n) 1000.
Proof.
  unfold FusionSimulator.getHistory. intros H.
  rewrite step_history, trim_length; rewrite length_app; cbn [List.length];
    rewrite H; lia.
Qed.

Lemma twin_inv_step (f d m : bool) (n : nat) (clock : Clock)
    (deltaTime : option num) (tc : t) :
  twin_inv f d m n tc ->
  twin_inv f d m (S n) (snd (step Number_toString clock deltaTime tc)).
Proof.
  destruct tc as [cfg [mem fus dec] [ini tm ds]]. unfold twin_inv, step.
  cbn [state components initialized decisions time fusion decision memory
       config].
  intros (-> & -> & Hf & He & Hm). cbn [negb].
  destruct fus as [sim |]; [destruct Hf as (-> & Ht & Hl) | subst f];
    (destruct dec as [eng |]; [destruct He as (-> & Hh) | subst d]);
    (destruct mem as [mem |]; [destruct Hm as (-> & Hn & Hlen) | subst m]);
    cbn [set_fusion set_decision set_memory fusion decision memory andb]
      in *;
    try (assert (Hdh := decide_history Number_toString (at_decide clock)
                   (FusionSimulator.getState
                      (FusionSimulator.step
                         (Some (default_arg (Fin 1.0) deltaTime)) sim))
                   eng);
         destruct (DecisionEngine.decide _ _ _ eng) as [dec eng'];
         cbn [fst snd] in Hdh);
    cbn [snd state components initialized decisions time fusion decision
         memory set_fusion set_decision set_memory Memory.store];
    repeat split; trivial;
    try (now rewrite fusion_step_time, Ht);
    try (now apply fusion_step_length);
    try (unfold DecisionEngine.getHistory in *;
         rewrite Hdh, length_app; cbn [List.length]; lia).
  - apply set_keys_NoDup. exact Hn.
  - etransitivity; [apply set_length |].
    change (match Memory.data mem with None => [] | Some d => d end)
      with (MemoryView.entries mem). lia.
Qed.

Lemma twin_steps_snoc (inputs : list (Clock * option num))
    (i : Clock * option num) (tc : t) :
  steps Number_toString (inputs ++ [i]) tc
  = snd (step Number_toString (fst i) (snd i)
              (steps Number_toString inputs tc)).
Proof. unfold steps. rewrite fold_left_app. now destruct i. Qed.

Lemma advance_snoc (tm : num) (inputs : list (Clock * option num))
    (i : Clock * option num) :
  advance tm (inputs ++ [i])
  = add (advance tm inputs) (default_arg (Fin 1.0) (snd i)).
Proof. unfold advance. rewrite fold_left_app. now destruct i. Qed.

Lemma twin_inv_initialize (arg : ConfigArg) :
  twin_inv (fusionEnabled (config (new arg)))
           (decisionEnabled (config (new arg)))
           (memoryEnabled (config (new arg))) 0 (initialize (new arg)).
Proof.
  unfold twin_inv, initialize.
  destruct (memoryEnabled (config (new arg)));
    destruct (fusionEnabled (config (new arg)));
    destruct (decisionEnabled (config (new arg)));
    cbn; repeat split; trivial; try constructor.
Qed.

(** X16: a TwinCosmos after [initialize] and any run of [step] calls.  Its
    time counter is the sum, in call order, of the [deltaTime]s; its own
    [decisions] list is never written; the simulator, when enabled, shows
    the same time and has a history of [min n 1000] entries; the engine,
    when enabled, has made one decision per step if there is a simulator
    and none otherwise; the store, when enabled, holds distinct keys, at
    most one entry per step, and nothing unless both the simulator and the
    engine are enabled.  A component that is disabled stays absent.
    [getState] reports the time counter, the simulator's state and, as
    decisions, the engine's history. *)
Theorem twin_after_steps (arg : ConfigArg)
    (inputs : list (Clock * option num)) :
  let tc := steps Number_toString inputs (initialize (new arg)) in
  let f := spread (arg_fusionEnabled arg) true in
  let d := spread (arg_decisionEnabled arg) true in
  let m := spread (arg_memoryEnabled arg) true in
  time (state tc) = advance (Fin 0) inputs
  /\ twin_inv f d m (List.length inputs) tc
  /\ rep_initialized (getState tc) = true
  /\ rep_time (getState tc) = advance (Fin 0) inputs
  /\ List.length (rep_decisions (getState tc))
     = (if f && d then List.length inputs else 0%nat)
  /\ match rep_fusion (getState tc) with
     | Some st => f = true /\ FusionSimulator.time st = rep_time (getState tc)
     | None => f = false
     end.
Proof.
  cbv zeta.
  assert (E : forall x, spread x (default_arg true x) = spread x true)
    by now intros [[|] |].
  rewrite <- !E.
  change (spread (arg_fusionEnabled arg)
            (default_arg true (arg_fusionEnabled arg)))
    with (fusionEnabled (config (new arg))).
  change (spread (arg_decisionEnabled arg)
            (default_arg true (arg_decisionEnabled arg)))
    with (decisionEnabled (config (new arg))).
  change (spread (arg_memoryEnabled arg)
            (default_arg true (arg_memoryEnabled arg)))
    with (memoryEnabled (config (new arg))).
  assert (G : time (state (steps Number_toString inputs
                                 (initialize (new arg))))
              = advance (Fin 0) inputs
              /\ twin_inv (fusionEnabled (config (new arg)))
                          (decisionEnabled (config (new arg)))
                          (memoryEnabled (config (new arg)))
                          (List.length inputs)
                          (steps Number_toString inputs
                                 (initialize (new arg)))).
  { induction inputs as [| i inputs IH] using rev_ind.
    - split; [reflexivity | apply twin_inv_initialize].
    - destruct IH as [IHt IHi].
      rewrite twin_steps_snoc, advance_snoc, length_app.
      cbn [List.length]. rewrite Nat.add_1_r. split.
      + rewrite step_time, IHt; [reflexivity | apply IHi].
      + now apply twin_inv_step. }
  destruct G as [Gt Gi]. split; [exact Gt |]. split; [exact Gi |].
  destruct Gi as (Hi & _ & Hf & He & _). unfold getState.
  cbn [rep_initialized rep_time rep_decisions rep_fusion].
  split; [exact Hi |]. split; [exact Gt |]. split.
  - destruct (decision (components _)) as [eng |].
    + destruct He as [-> Hl]. rewrite andb_true_r. exact Hl.
    + rewrite He, andb_false_r. reflexivity.
  - destruct (fusion (components _)) as [sim |]; [| exact Hf].
    destruct Hf as (-> & Ht & _). split; [reflexivity | exact Ht].
Qed.

(** X17: a [step] on an initialized TwinCosmos without a simulator only
    advances the time counter: it returns no fusion state and no decision,
    and leaves the engine and the store, if any, untouched.  Without an
    engine it returns no decision and leaves the store untouched. *)
Theorem step_skips_absent_components (clock : Clock)
    (deltaTime : option num) (tc : t) :
  initialized (state tc) = true ->
  let tm := add (time (state tc)) (default_arg (Fin 1.0) deltaTime) in
  (fusion (components tc) = None ->
   step Number_toString clock deltaTime tc
   = (Return (mkResults tm None None),
      mkTwin (config tc) (components tc)
             (mkState true tm (decisions (state tc)))))
  /\ (decision (components tc) = None ->
      exists res tc',
        step Number_toString clock deltaTime tc = (Return res, tc')
        /\ res_decision res = None
        /\ memory (components tc') = memory (components tc)
        /\ decision (components tc') = None).
Proof.
  destruct tc as [cfg [mem fus dec] [ini tm ds]]. unfold step.
  cbn [state components initialized decisions time fusion decision memory
       config].
  intros ->. cbv zeta. cbn [negb]. split.
  - intros ->. destruct dec; destruct mem; reflexivity.
  - intros ->. destruct fus; destruct mem;
      do 2 eexists; (split; [reflexivity |]); now repeat split.
Qed.

Lemma step_keeps_initialized (clock : Clock) (deltaTime : option num)
    (tc : t) :
  initialized (state tc) = true ->
  exists res tc',
    step Number_toString clock deltaTime tc = (Return res, tc')
    /\ initialized (state tc') = true
    /\ time (state tc')
       = add (time (state tc)) (default_arg (Fin 1.0) deltaTime).
Proof.
  destruct tc as [cfg [mem fus dec] [ini tm ds]]. unfold step.
  cbn [state components initialized decisions time fusion decision memory
       config].
  intros ->. cbn [negb].
  destruct fus as [sim |]; destruct dec as [eng |]; destruct mem as [mem |];
    cbn [set_fusion set_decision set_memory fusion decision memory];
    try destruct (DecisionEngine.decide _ _ _ eng) as [d eng'];
    do 2 eexists; (split; [reflexivity |]); split; reflexivity.
Qed.

Lemma twin_steps_cons (i : Clock * option num)
    (inputs : list (Clock * option num)) (tc : t) :
  steps Number_toString (i :: inputs) tc
  = steps Number_toString inputs
          (snd (step Number_toString (fst i) (snd i) tc)).
Proof. now destruct i. Qed.

Lemma run_loop_initialized (clock : nat -> Clock) (n i : nat) (tc : t)
    (calls : list (Results * nat)) :
  initialized (state tc) = true ->
  exists more,
    run_loop Number_toString clock i n tc calls
    = (Return tt,
       steps Number_toString
             (map (fun k => (clock k, Some (Fin 0.1))) (seq i n)) tc,
       calls ++ more)
    /\ map snd more = seq i n
    /\ time (state (steps Number_toString
                      (map (fun k => (clock k, Some (Fin 0.1))) (seq i n))
                      tc))
       = Nat.iter n (fun tm => add tm (Fin 0.1)) (time (state tc)).
Proof.
  revert i tc calls. induction n as [| n IH]; intros i tc calls H.
  - exists []. cbn. now rewrite app_nil_r.
  - cbn [run_loop seq map]. rewrite twin_steps_cons. cbn [fst snd].
    destruct (step_keeps_initialized (clock i) (Some (Fin 0.1)) tc H)
      as (res & tc' & E & Hi & Ht).
    rewrite E. cbn [snd].
    destruct (IH (S i) tc' (calls ++ [(res, i)]) Hi) as (more & Er & Hm & Hn).
    exists ((res, i) :: more). rewrite Er, <- app_assoc. split; [| split].
    + reflexivity.
    + cbn [map snd]. now rewrite Hm.
    + rewrite Hn, Ht. cbn [default_arg].
      clear. induction n as [| n IHn]; [reflexivity |].
      change (Nat.iter (S n) (fun tm => add tm (Fin 0.1))
                (add (time (state tc)) (Fin 0.1)))
        with (add (Nat.iter n (fun tm => add tm (Fin 0.1))
                     (add (time (state tc)) (Fin 0.1))) (Fin 0.1)).
      now rewrite IHn.
Qed.

(** X18: [run(steps)] is [steps] calls of [step(0.1)].  On an initialized
    TwinCosmos it returns the state those calls leave and hands [onStep]
    one result per iteration with the indices 0, 1, ... in order.  Before
    [initialize] it throws at the first iteration without changing
    anything or calling [onStep]; with [steps = 0] it returns normally
    even then. *)
Theorem run_is_repeated_step (clock : nat -> Clock) (n : nat) (tc : t) :
  (initialized (state tc) = true ->
   let tc' :=
     steps Number_toString
           (map (fun k => (clock k, Some (Fin 0.1))) (seq 0 n)) tc in
   exists calls,
     run Number_toString clock (Some n) tc = (Return (state tc'), tc', calls)
     /\ map snd calls = seq 0 n
     /\ time (state tc')
        = Nat.iter n (fun tm => add tm (Fin 0.1)) (time (state tc)))
  /\ (initialized (state tc) = false ->
      run Number_toString clock (Some 0%nat) tc = (Return (state tc), tc, [])
      /\ run Number_toString clock (Some (S n)) tc
         = (Throw (mkError "TwinCosmos not initialized"), tc, [])
      /\ run Number_toString clock None tc
         = (Throw (mkError "TwinCosmos not initialized"), tc, [])).
Proof.
  split.
  - intros H. cbv zeta. unfold run. cbn [default_arg].
    destruct (run_loop_initialized clock n 0 tc [] H) as (more & E & Hm & Ht).
    rewrite E. exists more. now repeat split.
  - intros H. unfold run, default_arg.
    change 100%nat with (S 99). cbn [run_loop]. unfold step. rewrite H.
    cbn [negb]. now repeat split.
Qed.

End DriverMore.

Section LogFacts.

Import TwinCosmos Driving.
Variable Number_toString : num -> string.
Variable JSON_stringify : DecisionEngine.Decision -> string.

Lemma set_Forall {A : Type} (P : string * A -> Prop) (key : string) (v : A)
    (m : list (string * A)) :
  Forall P m -> P (key, v) -> Forall P (JSMap.set key v m).
Proof.
  intros Hm Hv. induction Hm as [| [k w] m Hk Hm IH]; cbn [JSMap.set].
  - now constructor.
  - destruct (String.eqb_spec k key) as [-> | Hne]; constructor; trivial.
Qed.

Lemma prefix_includes (q s : string) :
  String.prefix q s = true -> Memory.includes s q = true.
Proof. intros H. destruct s; cbn [Memory.includes]; now rewrite H. Qed.

Lemma logged_step (clock : Clock) (deltaTime : option num) (tc : t) :
  logged tc -> logged (snd (step Number_toString clock deltaTime tc)).
Proof.
  destruct tc as [cfg [mem fus dec] [ini tm ds]]. unfold logged, step.
  cbn [state components initialized decisions time fusion decision memory
       config].
  destruct ini; cbn [negb snd components memory decision]; [| trivial].
  intros H.
  destruct fus as [sim |]; destruct dec as [eng |];
    destruct mem as [mem |];
    cbn [set_fusion set_decision set_memory fusion decision memory] in *;
    try (assert (Hdh := decide_history Number_toString (at_decide clock)
                   (FusionSimulator.getState
                      (FusionSimulator.step
                         (Some (default_arg (Fin 1.0) deltaTime)) sim))
                   eng);
         destruct (DecisionEngine.decide _ _ _ eng) as [d eng'];
         cbn [fst snd] in Hdh);
    cbn [snd state components initialized decisions time fusion decision
         memory set_fusion set_decision set_memory Memory.store];
    trivial.
  change (match Memory.data mem with None => [] | Some d0 => d0 end)
    with (MemoryView.entries mem).
  change (MemoryView.entries
            (Memory.mkMemory
               (Some (JSMap.set
                        ("step_" ++ Number_toString
                                      (add tm (default_arg (Fin 1.0)
                                                           deltaTime)))
                        (Memory.mkEntry d (mkMeta (at_meta clock) "decision")
                                        (at_store clock))
                        (MemoryView.entries mem)))))
    with (JSMap.set
            ("step_" ++ Number_toString
                          (add tm (default_arg (Fin 1.0) deltaTime)))
            (Memory.mkEntry d (mkMeta (at_meta clock) "decision")
                            (at_store clock))
            (MemoryView.entries mem)).
  unfold DecisionEngine.getHistory in *.
  apply set_Forall.
  - revert H. apply Forall_impl. intros [k e] (H1 & H2 & H3).
    repeat split; trivial. rewrite Hdh. apply in_or_app. now left.
  - cbn [fst snd Memory.value Memory.meta meta_type].
    split; [apply prefix_app; eexists; reflexivity |].
    split; [reflexivity |].
    rewrite Hdh. apply in_or_app. right. now left.
Qed.

Lemma logged_initialize (arg : ConfigArg) : logged (initialize (new arg)).
Proof.
  unfold logged, initialize.
  destruct (memoryEnabled (config (new arg)));
    destruct (fusionEnabled (config (new arg)));
    destruct (decisionEnabled (config (new arg))); cbn; trivial.
Qed.

(** X21: the store of a TwinCosmos is a log of decisions.  After
    [initialize] and any run of [step] calls, every entry of the store has
    a key that starts with "step_", the metadata type "decision", and as
    value one of the decisions of the engine's history; so
    [retrieve("step_")] returns the whole store, in insertion order. *)
Theorem store_is_a_decision_log (arg : ConfigArg)
    (inputs : list (Clock * option num)) :
  let tc := steps Number_toString inputs (initialize (new arg)) in
  logged tc
  /\ forall mem,
       memory (components tc) = Some mem ->
       Memory.retrieve JSON_stringify "step_" mem
       = map MemoryView.found (MemoryView.entries mem).
Proof.
  cbv zeta.
  assert (H : logged (steps Number_toString inputs (initialize (new arg)))).
  { induction inputs as [| i inputs IH] using rev_ind.
    - apply logged_initialize.
    - rewrite twin_steps_snoc. now apply logged_step. }
  split; [exact H |]. intros mem Hm. unfold logged in H. rewrite Hm in H.
  rewrite retrieve_filter, filter_all; trivial.
  intros e He. rewrite Forall_forall in H. destruct (H e He) as (Hp & _).
  unfold MemoryView.matches. now rewrite (prefix_includes _ _ Hp).
Qed.

End LogFacts.

(** ** The ranking of patterns *)

Section RankingFacts.

Import DecisionEngine Learning Inputs.
Local Open Scope R_scope.

Variable Number_toString : num -> string.

Lemma getPatterns_loop (m : list (string * Pattern))
    (acc : list PatternReport) :
  fold_left
    (fun result '(key, value) =>
       result ++
       [{| rep_key := key;
           rep_temperature := pat_temperature value;
           rep_density := pat_density value;
           rep_stability := pat_stability value;
           rep_fusionPower := pat_fusionPower value;
           rep_count := count value;
           rep_totalScore := totalScore value;
           avgScore :=
             if gt (count value) (Fin 0)
             then div (totalScore value) (count value)
             else Fin 0 |}])
    m acc
  = acc ++ map report m.
Proof.
  revert acc. induction m as [| [k p] m IH]; intros acc.
  - cbn. now rewrite app_nil_r.
  - cbn [fold_left map]. rewrite IH, <- app_assoc. reflexivity.
Qed.

Lemma getPatterns_sort (eng : t) :
  getPatterns eng = JSArray.sort by_score (map report (patterns eng)).
Proof. unfold getPatterns. now rewrite getPatterns_loop. Qed.

Lemma insert_perm (x : PatternReport) (l : list PatternReport) :
  Permutation (x :: l) (JSArray.insert by_score x l).
Proof.
  induction l as [| y l IH]; cbn [JSArray.insert]; [reflexivity |].
  destruct (gt (by_score x y) (Fin 0)); [| reflexivity].
  rewrite perm_swap. now constructor.
Qed.

Lemma sort_perm (l : list PatternReport) :
  Permutation l (JSArray.sort by_score l).
Proof.
  induction l as [| x l IH]; [constructor |].
  cbn [JSArray.sort fold_right]. rewrite <- insert_perm. now constructor.
Qed.

Lemma averaged_finite (r : PatternReport) :
  averaged r -> exists a, avgScore r = Fin a.
Proof. intros (c & s & _ & _ & H & _). eauto. Qed.

Lemma insert_sorted (x : PatternReport) (l : list PatternReport) :
  averaged x -> Forall averaged l ->
  StronglySorted ranked_before l ->
  StronglySorted ranked_before (JSArray.insert by_score x l).
Proof.
  intros Hx Hl Hs. destruct (averaged_finite x Hx) as [ax Ex].
  induction l as [| y l IH]; cbn [JSArray.insert].
  - constructor; constructor.
  - inversion Hl as [| ? ? Hy Hl']; subst.
    inversion Hs as [| ? ? Hs' Hall]; subst.
    destruct (averaged_finite y Hy) as [ay Ey].
    unfold by_score at 1. rewrite Ex, Ey. cbn [sub gt lt].
    destruct (Rlt_dec 0 (ay - ax)) as [Hlt | Hge].
    + rewrite Rltb_true by exact Hlt. constructor; [now apply IH |].
      apply (Permutation_Forall (insert_perm x l)). constructor; [| exact Hall].
      exists ay, ax. repeat split; trivial. lra.
    + rewrite Rltb_false by exact Hge. constructor; [exact Hs |].
      constructor.
      * exists ax, ay. repeat split; trivial. lra.
      * rewrite Forall_forall in *. intros z Hz.
        destruct (Hall z Hz) as (y' & az & Ey' & Ez & Hle).
        rewrite Ey in Ey'. injection Ey' as <-.
        exists ax, az. repeat split; trivial. lra.
Qed.

Lemma sort_sorted (l : list PatternReport) :
  Forall averaged l -> StronglySorted ranked_before (JSArray.sort by_score l).
Proof.
  induction l as [| x l IH]; intros H; [constructor |].
  inversion H; subst. cbn [JSArray.sort fold_right].
  apply insert_sorted; trivial; [| now apply IH].
  now apply (Permutation_Forall (sort_perm l)).
Qed.

Lemma counted_averaged (e : string * Pattern) :
  counted e -> averaged (report e).
Proof.
  intros (c & s & Hc & Hs & H1 & H2). exists c, s.
  unfold report. cbn [rep_count rep_totalScore avgScore].
  rewrite Hc, Hs. cbn [gt lt]. rewrite Rltb_true by lra.
  rewrite div_fin by lra. repeat split; trivial.
  - apply Rmult_le_pos; [lra |]. left. apply Rinv_0_lt_compat. lra.
  - apply Rmult_le_reg_r with c; [lra |].
    unfold Rdiv. rewrite Rmult_assoc, Rinv_l by lra. lra.
Qed.

(** X19: [getPatterns] on an engine built by the constructor and driven by
    [decide] returns one report per pattern of the map, ranked by average
    score, highest first.  Every average is the score divided by the
    count, a number between 0 and 1: the count is never 0, so the guard
    against it never applies. *)
Theorem getPatterns_ranks_by_average (eng : t) :
  reachable Number_toString eng ->
  Permutation (map report (patterns eng)) (getPatterns eng)
  /\ StronglySorted ranked_before (getPatterns eng)
  /\ Forall averaged (getPatterns eng).
Proof.
  intros H.
  destruct (reachable_patterns_invariant Number_toString eng H)
    as (_ & Hc & _).
  assert (Ha : Forall averaged (map report (patterns eng))).
  { rewrite Forall_map. revert Hc. apply Forall_impl.
    exact counted_averaged. }
  rewrite getPatterns_sort. split; [apply sort_perm |]. split.
  - now apply sort_sorted.
  - now apply (Permutation_Forall (sort_perm _)).
Qed.

End RankingFacts.

(** ** Instances *)

(** A new engine after two decisions on the same snapshot. *)
Lemma patterns_count_decisions_witness :
  let eng :=
    snd (DecisionEngine.decide Inputs.plain_toString (Fin 2) Inputs.hot_plasma
           (snd (DecisionEngine.decide Inputs.plain_toString (Fin 1)
                   Inputs.hot_plasma
                   (DecisionEngine.new DecisionEngine.no_config))))
  in
  Learning.total_count (DecisionEngine.patterns eng)
  = INR (List.length (DecisionEngine.history eng)).
Proof.
  cbv zeta.
  apply (patterns_count_decisions Inputs.plain_toString
           (snd (DecisionEngine.decide Inputs.plain_toString (Fin 2)
                   Inputs.hot_plasma
                   (snd (DecisionEngine.decide Inputs.plain_toString (Fin 1)
                           Inputs.hot_plasma
                           (DecisionEngine.new DecisionEngine.no_config)))))).
  do 2 constructor. constructor.
Defined.

(** A new engine. *)
Lemma labels_stay_in_fixed_sets_witness :
  In (DecisionEngine.heating
        (DecisionEngine.currentBest
           (DecisionEngine.new DecisionEngine.no_config)))
     ["PID"; "Adaptive"]%string.
Proof.
  apply (labels_stay_in_fixed_sets Inputs.plain_toString
           (DecisionEngine.new DecisionEngine.no_config)).
  constructor.
Defined.


(** A TwinCosmos built with [{fusionEnabled: false}], after [initialize]. *)
Lemma step_skips_absent_components_witness :
  let tc :=
    TwinCosmos.initialize
      (TwinCosmos.new (TwinCosmos.mkConfigArg None (Some false) None None)) in
  TwinCosmos.step Inputs.plain_toString
    (TwinCosmos.mkClock (Fin 1) (Fin 2) (Fin 3)) None tc
  = (TwinCosmos.Return
       (TwinCosmos.mkResults (add (Fin 0) (Fin 1.0)) None None),
     TwinCosmos.mkTwin (TwinCosmos.config tc) (TwinCosmos.components tc)
       (TwinCosmos.mkState true (add (Fin 0) (Fin 1.0)) [])).
Proof.
  cbv zeta.
  exact (proj1 (step_skips_absent_components Inputs.plain_toString
                  (TwinCosmos.mkClock (Fin 1) (Fin 2) (Fin 3)) None
                  (TwinCosmos.initialize
                     (TwinCosmos.new
                        (TwinCosmos.mkConfigArg None (Some false) None None)))
                  eq_refl) eq_refl).
Defined.

(** A new engine after one decision. *)
Lemma getPatterns_ranks_by_average_witness :
  let eng :=
    snd (DecisionEngine.decide Inputs.plain_toString (Fin 1) Inputs.hot_plasma
           (DecisionEngine.new DecisionEngine.no_config)) in
  Forall Learning.averaged (DecisionEngine.getPatterns eng).
Proof.
  cbv zeta.
  apply (getPatterns_ranks_by_average Inputs.plain_toString
           (snd (DecisionEngine.decide Inputs.plain_toString (Fin 1)
                   Inputs.hot_plasma
                   (DecisionEngine.new DecisionEngine.no_config)))).
  constructor. constructor.
Defined.
